(** * quart.static: static file delivery and root-path resolution

    A shallow embedding of [src/quart/static.py]: the [PackageStatic]
    class, [safe_join], [send_from_directory] and [send_file], together
    with the parts of [os.path], [pathlib], [sys], [pkgutil] and
    [mimetypes] these functions call, on a POSIX file system. *)

From Stdlib Require Import String Ascii List Bool Arith Lia.
From stdpp Require Import base option gmap strings.

Import ListNotations.
Local Open Scope string_scope.

(** ** Python strings *)

Module Str.

Definition sep : ascii := "/"%char.

(** [s.startswith(p)] *)
Definition startswith (s p : string) : bool := String.prefix p s.

(** [c in s] for a one-character [c] *)
Fixpoint contains (c : ascii) (s : string) : bool :=
  match s with
  | EmptyString => false
  | String a r => Ascii.eqb a c || contains c r
  end.

(** [s.split(c)]: the fields of [s] between occurrences of [c]; never
    the empty list. *)
Fixpoint split (c : ascii) (s : string) : list string :=
  match s with
  | EmptyString => [EmptyString]
  | String a r =>
      if Ascii.eqb a c then EmptyString :: split c r
      else match split c r with
           | [] => [String a EmptyString]
           | f :: fs => String a f :: fs
           end
  end.

(** [c.join(l)] *)
Fixpoint join (c : string) (l : list string) : string :=
  match l with
  | [] => EmptyString
  | [x] => x
  | x :: r => x ++ c ++ join c r
  end.

(** [s.rstrip(c)] *)
Fixpoint rstrip (c : ascii) (s : string) : string :=
  match s with
  | EmptyString => EmptyString
  | String a r =>
      match rstrip c r with
      | EmptyString => if Ascii.eqb a c then EmptyString else String a EmptyString
      | r' => String a r'
      end
  end.

(** [s[:s.rfind(c) + 1]]: everything up to and including the last [c]. *)
Fixpoint upto_last (c : ascii) (s : string) : string :=
  match s with
  | EmptyString => EmptyString
  | String a r => if contains c s then String a (upto_last c r) else EmptyString
  end.

(** [s[s.rfind(c) + 1:]]: everything after the last [c]. *)
Fixpoint after_last (c : ascii) (s : string) : string :=
  match s with
  | EmptyString => EmptyString
  | String a r => if contains c s then after_last c r else s
  end.

(** [s.endswith(c)] for a one-character [c] *)
Fixpoint endswith (c : ascii) (s : string) : bool :=
  match s with
  | EmptyString => false
  | String a EmptyString => Ascii.eqb a c
  | String _ r => endswith c r
  end.

Definition is_empty (s : string) : bool :=
  match s with EmptyString => true | _ => false end.

End Str.

(** ** [os.path] (posixpath) *)

Module os_path.

Definition isabs (p : string) : bool := Str.startswith p "/".

(** [os.path.basename(p)] is [p[p.rfind('/') + 1:]]. *)
Definition basename (p : string) : string := Str.after_last Str.sep p.

(** [os.path.dirname(p)]: the head up to the last slash, with trailing
    slashes removed unless the head consists of slashes only. *)
Definition dirname (p : string) : string :=
  let head := Str.upto_last Str.sep p in
  match Str.rstrip Str.sep head with
  | EmptyString => head
  | stripped => stripped
  end.

(** One step of the loop of [os.path.join(a, *p)]. *)
Definition join_step (path b : string) : string :=
  if Str.startswith b "/" then b
  else if Str.is_empty path || Str.endswith Str.sep path then path ++ b
       else path ++ "/" ++ b.

Definition join (a : string) (p : list string) : string :=
  fold_left join_step p a.

(** The loop of [os.path.normpath] over the split components;
    [rooted] tells whether the path had initial slashes, [acc] is
    [new_comps] in reverse. *)
Fixpoint normcomps (rooted : bool) (acc : list string) (comps : list string)
  : list string :=
  match comps with
  | [] => rev acc
  | comp :: rest =>
      if String.eqb comp "" || String.eqb comp "." then normcomps rooted acc rest
      else if negb (String.eqb comp "..") then normcomps rooted (comp :: acc) rest
      else match acc with
           | [] => if rooted then normcomps rooted acc rest
                   else normcomps rooted (comp :: acc) rest
           | top :: below =>
               if String.eqb top ".." then normcomps rooted (comp :: acc) rest
               else normcomps rooted below rest
           end
  end.

(** [os.path.normpath(path)]; exactly two initial slashes are kept, as
    POSIX allows. *)
Definition normpath (path : string) : string :=
  if Str.is_empty path then "."
  else
    let initial :=
      if Str.startswith path "/" then
        if Str.startswith path "//" && negb (Str.startswith path "///")
        then "//" else "/"
      else "" in
    let comps := normcomps (negb (Str.is_empty initial)) [] (Str.split Str.sep path) in
    match initial ++ Str.join "/" comps with
    | EmptyString => "."
    | res => res
    end.

(** [os.path.abspath(path)], given the result of [os.getcwd()]. *)
Definition abspath (cwd path : string) : string :=
  normpath (if isabs path then path else join cwd [path]).

End os_path.

(** ** [pathlib] on a file system without symbolic links *)

Module pathlib.

(** A path object: whether it has a root, and its components after the
    root. *)
Record Path := mkPath { anchored : bool; parts : list string }.

(** [str(path)] *)
Definition str (p : Path) : string :=
  if anchored p then "/" ++ Str.join "/" (parts p)
  else match parts p with
       | [] => "."
       | _ => Str.join "/" (parts p)
       end.

(** Parsing one argument: empty and [.] components are dropped, [..]
    is kept. *)
Definition parse_parts (arg : string) : Path :=
  {| anchored := Str.startswith arg "/";
     parts := List.filter (fun c => negb (String.eqb c "" || String.eqb c "."))
                          (Str.split Str.sep arg) |}.

(** An argument with a root discards everything before it. *)
Definition joinpath (p q : Path) : Path :=
  if anchored q then q else mkPath (anchored p) (parts p ++ parts q).

(** The constructor [Path] applied to the argument list [args] *)
Definition Path_of (args : list string) : Path :=
  fold_left (fun p a => joinpath p (parse_parts a)) args (mkPath false []).

(** One component of the walk of [Path.resolve()]: when no prefix of
    the path is a symbolic link, [readlink] fails at every step and each
    name is either skipped, pops the last component ([..], a no-op at
    the root) or is appended. *)
Definition resolve_step (path : list string) (name : string) : list string :=
  if String.eqb name "" || String.eqb name "." then path
  else if String.eqb name ".." then removelast path
  else path ++ [name].

(** [path.resolve()] in working directory [cwd]: a relative path is
    walked from the components of [os.getcwd()], which POSIX returns
    free of [.], [..] and symbolic links. *)
Definition resolve (cwd : string) (p : Path) : Path :=
  mkPath true (fold_left resolve_step (parts p)
                         (if anchored p then [] else parts (parse_parts cwd))).

End pathlib.

(** ** Exceptions *)

Inductive exn : Type :=
| NotFound
| RuntimeError (msg : string)
| ValueError (msg : string)
| TypeError (msg : string)
| ImportError (msg : string)
| OSError (filename : string).

Inductive result (A : Type) : Type :=
| Return (a : A)
| Raise (e : exn).
Arguments Return {A} a.
Arguments Raise {A} e.

(** ** The world the functions run in *)

(** What a path names on disk. *)
Inductive node : Type :=
| RegularFile (content : list Byte.byte)
| Directory
| Special (stream : list Byte.byte).

(** A file system without symbolic links: the working directory as
    [os.getcwd()] returns it, the entries keyed by their resolved path
    string (the root is always a directory), the entries the process may
    not open, and the entries whose content cannot be read once open. *)
Record FileSystem := mkFS {
  fs_cwd : string;
  fs_nodes : gmap string node;
  fs_denied : gset string;
  fs_faulty : gset string
}.

(** A module object: [module_file] is [None] when it has no [__file__]
    attribute, [Some None] when the attribute is there and holds [None]
    (a namespace package), [Some (Some f)] when it holds the string
    [f]. *)
Record module := mkModule { module_file : option (option string) }.

(** A loader as [pkgutil.get_loader] returns it. *)
Record Loader := mkLoader { get_filename : string -> result string }.

(** The interpreter state the functions consult: [sys.modules], the
    loaders [pkgutil.get_loader] finds, the table behind
    [mimetypes.guess_type] (the type it guesses for a base name), and the
    names for which [pkgutil.get_loader] finds no loader but raises
    [ImportError], with its message (a dotted name whose parent package
    cannot be imported). *)
Record Interp := mkInterp {
  sys_modules : gmap string module;
  loaders : gmap string Loader;
  mimetypes_db : string -> option string;
  unimportable : gmap string string
}.

Inductive event : Type :=
| EvOpen (name mode : string)
| EvRead (name : string)
| EvClose (name : string).

Record World := mkWorld {
  w_fs : FileSystem;
  w_interp : Interp;
  w_trace : list event
}.

Definition log (e : event) (w : World) : World :=
  mkWorld (w_fs w) (w_interp w) (w_trace w ++ [e]).

Definition set_node (key : string) (n : node) (w : World) : World :=
  mkWorld (mkFS (fs_cwd (w_fs w)) (<[key := n]> (fs_nodes (w_fs w)))
                (fs_denied (w_fs w)) (fs_faulty (w_fs w)))
          (w_interp w) (w_trace w).

(** ** Computations that may raise, read the world and log file access *)

Definition IO (A : Type) : Type := World -> result A * World.

#[global] Instance IO_ret : MRet IO := fun A a w => (Return a, w).

#[global] Instance IO_bind : MBind IO := fun A B f m w =>
  match m w with
  | (Return a, w') => f a w'
  | (Raise e, w') => (Raise e, w')
  end.

Definition raise {A : Type} (e : exn) : IO A := fun w => (Raise e, w).

(** [try: body finally: cleanup] *)
Definition finally {A : Type} (body : IO A) (cleanup : IO unit) : IO A :=
  fun w =>
    match body w with
    | (r, w') =>
        match cleanup w' with
        | (Return _, w'') => (r, w'')
        | (Raise e, w'') => (Raise e, w'')
        end
    end.

Module os.

(** [os.getcwd()] *)
Definition getcwd : IO string :=
  fun w => (Return (fs_cwd (w_fs w)), w).

(** [os.path.realpath(name)], on a file system without symbolic links. *)
Definition realpath (fs : FileSystem) (name : string) : string :=
  pathlib.str (pathlib.resolve (fs_cwd fs) (pathlib.Path_of [name])).

Definition nul : ascii := Ascii.zero.

(** The key of the entry with components [cur]. *)
Definition key (cur : list string) : string :=
  pathlib.str (pathlib.mkPath true cur).

(** What the components [cur] name; the root is a directory. *)
Definition node_at (fs : FileSystem) (cur : list string) : option node :=
  match cur with
  | [] => Some Directory
  | _ => fs_nodes fs !! key cur
  end.

Definition is_dir (fs : FileSystem) (cur : list string) : bool :=
  match node_at fs cur with
  | Some Directory => true
  | _ => false
  end.

(** The kernel's walk along the fields of a path name: every step, also
    an empty field, [.] and [..], is taken from an existing directory. *)
Fixpoint walk (fs : FileSystem) (cur : list string) (names : list string)
  : option (list string) :=
  match names with
  | [] => Some cur
  | name :: rest =>
      if is_dir fs cur then walk fs (pathlib.resolve_step cur name) rest
      else None
  end.

(** Where the kernel looks [name] up: nowhere for the empty name and for
    a name with a NUL character; from the root or from the working
    directory otherwise.  The last field need not exist. *)
Definition locate (fs : FileSystem) (name : string) : option (list string) :=
  if Str.is_empty name || Str.contains nul name then None
  else walk fs
            (if Str.startswith name "/" then []
             else pathlib.parts (pathlib.parse_parts (fs_cwd fs)))
            (Str.split Str.sep name).

Definition stat (fs : FileSystem) (name : string) : option node :=
  locate fs name ≫= node_at fs.

(** Whether the process is refused the entry [name] leads to. *)
Definition denied (fs : FileSystem) (name : string) : bool :=
  match locate fs name with
  | Some cur => bool_decide (key cur ∈ fs_denied fs)
  | None => false
  end.

(** Whether reading the entry [name] leads to fails. *)
Definition faulty (fs : FileSystem) (name : string) : bool :=
  match locate fs name with
  | Some cur => bool_decide (key cur ∈ fs_faulty fs)
  | None => false
  end.

(** The entry can be opened and read to its end. *)
Definition readable (fs : FileSystem) (name : string) : bool :=
  negb (denied fs name) && negb (faulty fs name).

(** [os.path.isfile(name)]: false also where [os.stat] fails. *)
Definition isfile (name : string) : IO bool :=
  fun w => (Return match stat (w_fs w) name with
                   | Some (RegularFile _) => true
                   | _ => false
                   end, w).

(** [os.path.abspath(path)] *)
Definition abspath (path : string) : IO string :=
  cwd ← getcwd; mret (os_path.abspath cwd path).

End os.

(** [Path.resolve()] in the current working directory, on a file system
    without symbolic links and for a path without NUL character, where it
    returns what the walk of [pathlib.resolve] gives. *)
Definition Path_resolve (p : pathlib.Path) : IO pathlib.Path :=
  fun w => (Return (pathlib.resolve (fs_cwd (w_fs w)) p), w).

(** ** Files *)

Record FileHandle := mkHandle { fh_name : string; fh_mode : string }.

(** Reaching the entry a valid [open] is about: a name with a NUL
    character is a [ValueError]; a name that leads nowhere, or to an entry
    the process is refused, is an [OSError]; otherwise [k] goes on with the
    components of the entry and what is there. *)
Definition with_entry {A : Type} (name : string)
  (k : list string -> option node -> World -> result A * World)
  : World -> result A * World :=
  fun w =>
    if Str.contains os.nul name
    then (Raise (ValueError "embedded null byte"), w)
    else match os.locate (w_fs w) name with
         | None => (Raise (OSError name), w)
         | Some cur =>
             if bool_decide (os.key cur ∈ fs_denied (w_fs w))
             then (Raise (OSError name), w)
             else k cur (os.node_at (w_fs w) cur) w
         end.

(** The builtin [open(name, mode)] (and [aiofiles.open]): every call is
    logged.  A mode with [w] truncates or creates the file, [a] and [x]
    create it when it is absent, [r] needs an existing non-directory;
    a directory cannot be opened. *)
Definition open_ (name mode : string) : IO FileHandle :=
  fun w =>
    let w := log (EvOpen name mode) w in
    let ok := Return (mkHandle name mode) in
    if Str.contains "w" mode then
      with_entry name (fun cur here w =>
        match here with
        | Some Directory => (Raise (OSError name), w)
        | Some (Special _) => (ok, w)
        | _ => (ok, set_node (os.key cur) (RegularFile []) w)
        end) w
    else if Str.contains "a" mode then
      with_entry name (fun cur here w =>
        match here with
        | Some Directory => (Raise (OSError name), w)
        | Some _ => (ok, w)
        | None => (ok, set_node (os.key cur) (RegularFile []) w)
        end) w
    else if Str.contains "x" mode then
      with_entry name (fun cur here w =>
        match here with
        | Some _ => (Raise (OSError name), w)
        | None => (ok, set_node (os.key cur) (RegularFile []) w)
        end) w
    else if Str.contains "r" mode then
      with_entry name (fun cur here w =>
        match here with
        | Some (RegularFile _) | Some (Special _) => (ok, w)
        | _ => (Raise (OSError name), w)
        end) w
    else (Raise (ValueError "invalid mode"), w).

(** [file_.read()]: the whole content, unless reading fails. *)
Definition file_read (f : FileHandle) : IO (list Byte.byte) :=
  fun w =>
    let w := log (EvRead (fh_name f)) w in
    match os.stat (w_fs w) (fh_name f) with
    | Some (RegularFile data) | Some (Special data) =>
        if os.faulty (w_fs w) (fh_name f)
        then (Raise (OSError (fh_name f)), w)
        else (Return data, w)
    | _ => (Raise (OSError (fh_name f)), w)
    end.

Definition file_close (f : FileHandle) : IO unit :=
  fun w => (Return tt, log (EvClose (fh_name f)) w).

(** [sys.modules.get(name)] *)
Definition sys_modules_get (name : string) : IO (option module) :=
  fun w => (Return (sys_modules (w_interp w) !! name), w).

(** [pkgutil.get_loader(name)]: the loader found, [None], or the
    [ImportError] raised while looking for one.  The modules the call may
    import on its way are not recorded in [sys_modules]: nothing reads
    [sys.modules] after it. *)
Definition pkgutil_get_loader (name : string) : IO (option Loader) :=
  fun w =>
    match loaders (w_interp w) !! name with
    | Some loader => (Return (Some loader), w)
    | None =>
        match unimportable (w_interp w) !! name with
        | Some msg => (Raise (ImportError msg), w)
        | None => (Return None, w)
        end
    end.

(** [mimetypes.guess_type(name)[0]] *)
Definition mimetypes_guess_type (name : string) : IO (option string) :=
  fun w => (Return (mimetypes_db (w_interp w) name), w).

(** [x or d] on an optional string: [None] and the empty string are
    falsy. *)
Definition or_else (x : option string) (d : string) : string :=
  match x with
  | Some s => if Str.is_empty s then d else s
  | None => d
  end.

(** ** [quart.wrappers.Response] and [jinja2.FileSystemLoader], as
    constructed here *)

Record Response := mkResponse { data : list Byte.byte; mimetype : string }.

Record FileSystemLoader := mkFileSystemLoader { searchpath : string }.

(** [current_app.response_class(data, mimetype=mimetype)] *)
Definition response_class (data : list Byte.byte) (mimetype : string) : Response :=
  mkResponse data mimetype.

(** ** [quart/static.py] *)

Definition DEFAULT_MIMETYPE : string := "application/octet-stream".

Definition safe_join (directory : string) (paths : list string) : IO pathlib.Path :=
  safe_path ← Path_resolve (pathlib.Path_of [directory]);
  full_path ← Path_resolve (pathlib.Path_of (directory :: paths));
  if negb (Str.startswith (pathlib.str full_path) (pathlib.str safe_path))
  then raise NotFound
  else mret full_path.

Definition send_file (filename : string) : IO Response :=
  guessed ← mimetypes_guess_type (os_path.basename filename);
  let mimetype := or_else guessed DEFAULT_MIMETYPE in
  file_ ← open_ filename "rb";
  data ← finally (file_read file_) (file_close file_);
  mret (response_class data mimetype).

(** [file_path] is a path object; [os.path.isfile] and [send_file] take it
    through [os.fspath], which is its string. *)
Definition send_from_directory (directory file_name : string) : IO Response :=
  file_path ← safe_join directory [file_name];
  is_file ← os.isfile (pathlib.str file_path);
  if negb is_file then raise NotFound
  else send_file (pathlib.str file_path).

Module PackageStatic.

Record t := mk {
  import_name : string;
  template_folder : option string;
  root_path : string;
  _static_folder : option string;
  _static_url_path : option string
}.

(** The method reads [self.import_name] only and runs before the other
    fields exist, so it takes the name instead of [self].  The test
    [module is not None and hasattr(module, '__file__')] is the lookup of
    [module_file] under the option; a [__file__] that holds [None] is
    handed to [os.path.abspath], which raises [TypeError]. *)
Definition _find_root_path (import_name : string) (root_path : option string)
  : IO string :=
  match root_path with
  | Some root_path => mret root_path
  | None =>
      module ← sys_modules_get import_name;
      match module ≫= module_file with
      | Some (Some file_path) =>
          abs ← os.abspath file_path; mret (os_path.dirname abs)
      | Some None =>
          raise (TypeError "expected str, bytes or os.PathLike object, not NoneType")
      | None =>
          loader ← pkgutil_get_loader import_name;
          match loader with
          | None => os.getcwd
          | Some loader =>
              if String.eqb import_name "__main__" then os.getcwd
              else
                file_path ← (fun w => (get_filename loader import_name, w));
                abs ← os.abspath file_path; mret (os_path.dirname abs)
          end
      end
  end.

Definition __init__ (import_name : string) (template_folder root_path : option string)
  : IO t :=
  root ← _find_root_path import_name root_path;
  mret (mk import_name template_folder root None None).

Definition static_folder (self : t) : option string :=
  match _static_folder self with
  | Some folder => Some (os_path.join (root_path self) [folder])
  | None => None
  end.

Definition set_static_folder (self : t) (static_folder : string) : t :=
  mk (import_name self) (template_folder self) (root_path self)
     (Some static_folder) (_static_url_path self).

Definition static_url_path (self : t) : option string :=
  match _static_url_path self with
  | Some url => Some url
  | None =>
      match static_folder self with
      | Some folder => Some ("/" ++ os_path.basename folder)
      | None => None
      end
  end.

Definition set_static_url_path (self : t) (static_url_path : string) : t :=
  mk (import_name self) (template_folder self) (root_path self)
     (_static_folder self) (Some static_url_path).

Definition has_static_folder (self : t) : bool :=
  match static_folder self with Some _ => true | None => false end.

Definition jinja_loader (self : t) : option FileSystemLoader :=
  match template_folder self with
  | Some folder => Some (mkFileSystemLoader (os_path.join (root_path self) [folder]))
  | None => None
  end.

(** Past the guard [static_folder] is a string; handing [None] to [Path]
    would be a [TypeError]. *)
Definition send_static_file (self : t) (filename : string) : IO Response :=
  if negb (has_static_folder self)
  then raise (RuntimeError "No static folder for this object")
  else match static_folder self with
       | Some folder => send_from_directory folder filename
       | None => raise (TypeError "expected str, bytes or os.PathLike object, not NoneType")
       end.

Definition open_resource (self : t) (path : string) (mode : string) : IO FileHandle :=
  if negb (bool_decide (mode ∈ ({[ "r"; "rb" ]} : gset string)))
  then raise (ValueError "Files can only be opened for reading")
  else open_ (os_path.join (root_path self) [path]) mode.

End PackageStatic.

(** A path component holds no slash. *)
Definition slash_free (c : string) : Prop := Str.contains Str.sep c = false.

(** A component as parsing and resolution keep it: not empty, not [.],
    without a slash. *)
Definition clean (c : string) : Prop := c <> "" /\ c <> "." /\ slash_free c.

(** A name the resolution walk appends: not empty, not [.], not [..]. *)
Definition plain (c : string) : Prop := c <> "" /\ c <> "." /\ c <> "..".

(** ** A sample deployment *)

Module Sample.

Definition bytes (s : string) : list Byte.byte := list_byte_of_string s.

Definition fs : FileSystem :=
  mkFS "/home/u"
       (<[ "/srv/www" := Directory ]>
        (<[ "/srv/www/css" := Directory ]>
        (<[ "/srv/www/present.html" := RegularFile (bytes "<h1>hello</h1>") ]>
        (<[ "/srv/www/noext" := RegularFile (bytes "raw") ]>
        (<[ "/srv/www-evil/x" := RegularFile (bytes "secret") ]>
        (<[ "/etc/passwd" := RegularFile (bytes "root:x:0:0") ]>
        (<[ "/srv" := Directory ]>
        (<[ "/srv/www-evil" := Directory ]>
        (<[ "/etc" := Directory ]>
        (<[ "/home" := Directory ]>
        (<[ "/home/u" := Directory ]>
        (<[ "/srv/www/locked.html" := RegularFile (bytes "private") ]> ∅))))))))))))
       {[ "/srv/www/locked.html" ]}
       ∅.

(** A MIME table knowing two extensions. *)
Definition guess (name : string) : option string :=
  if negb (Str.contains "." name) then None
  else if String.eqb (Str.after_last "." name) "html" then Some "text/html"
  else if String.eqb (Str.after_last "." name) "css" then Some "text/css"
  else None.

(** The interpreter of a process started as [python /srv/app/run.py]:
    [__main__] carries the script's location, [sys] is built in and has
    none. *)
Definition interp : Interp :=
  mkInterp (<[ "__main__" := mkModule (Some (Some "/srv/app/run.py")) ]>
            (<[ "sys" := mkModule None ]> ∅))
           ∅
           guess
           {[ "no.such.module" :=
                "Error while finding loader for 'no.such.module' (<class 'ModuleNotFoundError'>: No module named 'no')" ]}.

Definition world : World := mkWorld fs interp [].

Definition app : PackageStatic.t :=
  PackageStatic.mk "app" None "/srv" None None.

End Sample.


Example split_ex : Str.split Str.sep "/a//b/" = [""; "a"; ""; "b"; ""].
Proof. reflexivity. Qed.

Example basename_ex :
  os_path.basename "/srv/www/index.html" = "index.html"
  /\ os_path.basename "static/" = "" /\ os_path.basename "static" = "static".
Proof. repeat split. Qed.

Example dirname_ex :
  os_path.dirname "/srv/app/run.py" = "/srv/app"
  /\ os_path.dirname "/run.py" = "/" /\ os_path.dirname "run.py" = "".
Proof. repeat split. Qed.

Example join_ex :
  os_path.join "/srv/app" ["static"] = "/srv/app/static"
  /\ os_path.join "/srv/app/" ["static"] = "/srv/app/static"
  /\ os_path.join "/srv/app" ["/opt/static"] = "/opt/static"
  /\ os_path.join "" ["static"] = "static".
Proof. repeat split. Qed.

Example abspath_ex :
  os_path.abspath "/home/u" "pkg/../app/./run.py" = "/home/u/app/run.py"
  /\ os_path.abspath "/home/u" "/srv//app/run.py" = "/srv/app/run.py"
  /\ os_path.abspath "/" "../x" = "/x".
Proof. repeat split. Qed.

Example Path_of_ex :
  pathlib.str (pathlib.Path_of ["/srv/www"; "css/./site.css"]) = "/srv/www/css/site.css"
  /\ pathlib.str (pathlib.Path_of ["/srv/www"; "/etc/passwd"]) = "/etc/passwd"
  /\ pathlib.str (pathlib.Path_of [""]) = ".".
Proof. repeat split. Qed.

Example resolve_ex :
  pathlib.str (pathlib.resolve "/home/u" (pathlib.Path_of ["www"; "../../x"])) = "/home/x"
  /\ pathlib.str (pathlib.resolve "/home/u" (pathlib.Path_of ["/a"; ".."; ".."])) = "/".
Proof. repeat split. Qed.

(** ** Running computations *)

Lemma run_bind_return {A B} (m : IO A) (k : A -> IO B) w a w' :
  m w = (Return a, w') -> (m ≫= k) w = k a w'.
Proof. intros H. unfold mbind, IO_bind. now rewrite H. Qed.

Ltac run :=
  repeat first
    [ progress (unfold mbind, IO_bind, mret, IO_ret, raise; cbn beta iota)
    | progress cbn [fst snd] ].

(** ** The static folder and its URL path *)

(** C4: serving from a component without a static folder raises the
    [RuntimeError] of misuse, whatever the file name and the world; this is
    not [NotFound], nothing is returned and the world is left as it was. *)
Theorem send_static_file_unconfigured (self : PackageStatic.t) (filename : string) (w : World) :
  PackageStatic._static_folder self = None ->
  PackageStatic.send_static_file self filename w
    = (Raise (RuntimeError "No static folder for this object"), w)
  /\ RuntimeError "No static folder for this object" <> NotFound
  /\ (forall r : Response,
        fst (PackageStatic.send_static_file self filename w) <> Return r).
Proof.
  intros Hnone.
  assert (Hrun : PackageStatic.send_static_file self filename w
                 = (Raise (RuntimeError "No static folder for this object"), w)).
  { unfold PackageStatic.send_static_file, PackageStatic.has_static_folder,
      PackageStatic.static_folder.
    now rewrite Hnone. }
  split; [exact Hrun|]. split; [discriminate|].
  intros r. rewrite Hrun. discriminate.
Qed.

Lemma send_static_file_unconfigured_witness :
  PackageStatic.send_static_file Sample.app "site.css" Sample.world
    = (Raise (RuntimeError "No static folder for this object"), Sample.world)
  /\ RuntimeError "No static folder for this object" <> NotFound
  /\ (forall r : Response,
        fst (PackageStatic.send_static_file Sample.app "site.css" Sample.world) <> Return r).
Proof.
  apply (send_static_file_unconfigured Sample.app "site.css" Sample.world).
  reflexivity.
Defined.

(** C9: the URL path of the static files.  An explicitly set path is
    returned unchanged; without one and without a static folder there is
    none; without one and with a static folder it is a function of the
    folder's base name alone: two components whose static folders have
    the same base name get the same URL path. *)
Theorem static_url_path_derivation (self : PackageStatic.t) :
  (forall url, PackageStatic._static_url_path self = Some url ->
     PackageStatic.static_url_path self = Some url)
  /\ (PackageStatic._static_url_path self = None ->
      PackageStatic.static_folder self = None ->
      PackageStatic.static_url_path self = None)
  /\ (forall folder, PackageStatic._static_url_path self = None ->
      PackageStatic.static_folder self = Some folder ->
      PackageStatic.static_url_path self = Some ("/" ++ os_path.basename folder)
      /\ forall other folder',
           PackageStatic._static_url_path other = None ->
           PackageStatic.static_folder other = Some folder' ->
           os_path.basename folder' = os_path.basename folder ->
           PackageStatic.static_url_path other = PackageStatic.static_url_path self).
Proof.
  unfold PackageStatic.static_url_path. split; [|split].
  - intros url ->. reflexivity.
  - intros -> ->. reflexivity.
  - intros folder Hurl Hfolder. rewrite Hurl, Hfolder. split; [reflexivity|].
    intros other folder' -> -> Hbase. now rewrite Hbase.
Qed.

Lemma static_url_path_derivation_witness :
  PackageStatic.static_url_path (PackageStatic.set_static_url_path Sample.app "/assets")
    = Some "/assets"
  /\ PackageStatic.static_url_path Sample.app = None
  /\ PackageStatic.static_url_path (PackageStatic.set_static_folder Sample.app "www/static")
     = Some "/static".
Proof.
  split; [|split].
  - destruct (static_url_path_derivation
                (PackageStatic.set_static_url_path Sample.app "/assets"))
      as (Hset & _ & _).
    apply Hset. reflexivity.
  - destruct (static_url_path_derivation Sample.app) as (_ & Hnone & _).
    apply Hnone; reflexivity.
  - destruct (static_url_path_derivation
                (PackageStatic.set_static_folder Sample.app "www/static"))
      as (_ & _ & Hderived).
    apply (Hderived "/srv/www/static"); reflexivity.
Defined.

(** ** Opening resources *)

Lemma mode_accepted (mode : string) :
  bool_decide (mode ∈ ({[ "r"; "rb" ]} : gset string)) = true
  <-> mode = "r" \/ mode = "rb".
Proof.
  rewrite bool_decide_eq_true. set_solver.
Qed.

(** Reaching an entry changes nothing by itself. *)
Lemma with_entry_world {A : Type} (name : string)
  (k : list string -> option node -> World -> result A * World) (w : World) :
  (forall cur here w', snd (k cur here w') = w') ->
  snd (with_entry name k w) = w.
Proof.
  intros Hk. unfold with_entry.
  destruct (Str.contains os.nul name); [reflexivity|].
  destruct (os.locate (w_fs w) name) as [cur|]; [|reflexivity].
  destruct (bool_decide _); [reflexivity | apply Hk].
Qed.

(** [open] with one of the two accepted modes is logged and changes
    nothing else. *)
Lemma open_read_mode_world (name mode : string) (w : World) :
  mode = "r" \/ mode = "rb" -> snd (open_ name mode w) = log (EvOpen name mode) w.
Proof.
  intros [-> | ->]; unfold open_;
    [ change (Str.contains "w" "r") with false; change (Str.contains "a" "r") with false;
      change (Str.contains "x" "r") with false; change (Str.contains "r" "r") with true
    | change (Str.contains "w" "rb") with false; change (Str.contains "a" "rb") with false;
      change (Str.contains "x" "rb") with false; change (Str.contains "r" "rb") with true ];
    cbv zeta; apply with_entry_world; intros cur [[| |]|] w'; reflexivity.
Qed.

(** [open] with one of the two accepted modes leaves every entry of the
    file system as it is. *)
Lemma open_read_mode_fs (name mode : string) (w : World) :
  mode = "r" \/ mode = "rb" -> w_fs (snd (open_ name mode w)) = w_fs w.
Proof. intros Hmode. now rewrite open_read_mode_world. Qed.

(** The resource-opening surface never changes the file system. *)
Lemma open_resource_preserves_fs (self : PackageStatic.t) (path mode : string) (w : World) :
  w_fs (snd (PackageStatic.open_resource self path mode w)) = w_fs w.
Proof.
  unfold PackageStatic.open_resource.
  destruct (bool_decide _) eqn:Hmode; cbn [negb].
  - apply open_read_mode_fs, mode_accepted, Hmode.
  - reflexivity.
Qed.

(** The two accepted modes are handed to [open] with the path joined to
    the root. *)
Lemma open_resource_read_modes (self : PackageStatic.t) (path mode : string) (w : World) :
  mode = "r" \/ mode = "rb" ->
  PackageStatic.open_resource self path mode w
  = open_ (os_path.join (PackageStatic.root_path self) [path]) mode w.
Proof. now intros [-> | ->]. Qed.

(** C10: any mode other than ['r'] and ['rb'] makes [open_resource] raise
    [ValueError]; the world is unchanged, so no file was opened (the trace
    has no new event) and no entry of the file system was touched. *)
Theorem open_resource_rejects_other_modes
  (self : PackageStatic.t) (path mode : string) (w : World) :
  mode <> "r" -> mode <> "rb" ->
  PackageStatic.open_resource self path mode w
    = (Raise (ValueError "Files can only be opened for reading"), w).
Proof.
  intros Hr Hrb. unfold PackageStatic.open_resource.
  destruct (bool_decide _) eqn:Hmode; [|reflexivity].
  apply mode_accepted in Hmode. tauto.
Qed.

Lemma open_resource_rejects_other_modes_witness :
  PackageStatic.open_resource Sample.app "www/noext" "rb+" Sample.world
    = (Raise (ValueError "Files can only be opened for reading"), Sample.world).
Proof.
  apply (open_resource_rejects_other_modes Sample.app "www/noext" "rb+" Sample.world);
    discriminate.
Defined.

Example open_resource_write_mode :
  PackageStatic.open_resource Sample.app "www/noext" "w" Sample.world
    = (Raise (ValueError "Files can only be opened for reading"), Sample.world)
  /\ fst (open_ "/srv/www/noext" "w" Sample.world)
     = Return (mkHandle "/srv/www/noext" "w")
  /\ os.stat (w_fs (snd (open_ "/srv/www/noext" "w" Sample.world))) "/srv/www/noext"
     = Some (RegularFile []).
Proof. vm_compute. repeat split. Qed.

(** ** Root resolution *)

(** C7: an explicit root override is the result, verbatim: the same
    string, whatever the identifier and whatever the world holds (the file
    system is not consulted, nothing is joined or normalised), and the
    world is unchanged. *)
Theorem find_root_path_override (import_name root : string) (w : World) :
  PackageStatic._find_root_path import_name (Some root) w = (Return root, w).
Proof. reflexivity. Qed.

Lemma init_override (import_name root : string) (template_folder : option string) (w : World) :
  PackageStatic.__init__ import_name template_folder (Some root) w
  = (Return (PackageStatic.mk import_name template_folder root None None), w).
Proof. reflexivity. Qed.

Lemma get_loader_world (name : string) (w : World) :
  snd (pkgutil_get_loader name w) = w.
Proof.
  unfold pkgutil_get_loader.
  destruct (loaders (w_interp w) !! name); [reflexivity|].
  now destruct (unimportable (w_interp w) !! name).
Qed.

(** C8, as the code has it: for an identifier with no loaded module
    carrying [__file__], when [pkgutil.get_loader] returns, and returns
    [None] or the identifier is ['__main__'], root resolution gives the
    current working directory. *)
Theorem find_root_path_cwd_fallback
  (import_name : string) (w : World) (loader : option Loader) :
  sys_modules (w_interp w) !! import_name ≫= module_file = None ->
  fst (pkgutil_get_loader import_name w) = Return loader ->
  loader = None \/ import_name = "__main__" ->
  fst (PackageStatic._find_root_path import_name None w) = Return (fs_cwd (w_fs w)).
Proof.
  intros Hmod Hreturns Hloader. unfold PackageStatic._find_root_path.
  unfold mbind in Hmod. run. unfold sys_modules_get. rewrite Hmod.
  pose proof (get_loader_world import_name w) as Hworld.
  destruct (pkgutil_get_loader import_name w) as [r w1].
  cbn in Hreturns, Hworld. subst r w1.
  destruct Hloader as [-> | ->]; [reflexivity|].
  destruct loader; reflexivity.
Qed.

Lemma find_root_path_cwd_fallback_witness :
  fst (PackageStatic._find_root_path "nosuchmodule" None Sample.world)
  = Return "/home/u".
Proof.
  apply (find_root_path_cwd_fallback "nosuchmodule" Sample.world None).
  - vm_compute. reflexivity.
  - vm_compute. reflexivity.
  - now left.
Defined.

(** The [ImportError] of [pkgutil.get_loader] is not caught: it comes out
    of root resolution. *)
Lemma find_root_path_import_error (import_name : string) (w : World) (msg : string) :
  sys_modules (w_interp w) !! import_name ≫= module_file = None ->
  loaders (w_interp w) !! import_name = None ->
  unimportable (w_interp w) !! import_name = Some msg ->
  PackageStatic._find_root_path import_name None w = (Raise (ImportError msg), w).
Proof.
  intros Hmod Hloader Himport. unfold PackageStatic._find_root_path.
  unfold mbind in Hmod. run. unfold sys_modules_get, pkgutil_get_loader.
  now rewrite Hmod, Hloader, Himport.
Qed.

Example find_root_path_dotted_name :
  exists msg,
    fst (PackageStatic._find_root_path "no.such.module" None Sample.world)
    = Raise (ImportError msg).
Proof. eexists. vm_compute. reflexivity. Qed.

(** A module whose [__file__] holds [None] makes root resolution raise
    [TypeError]. *)
Lemma find_root_path_file_none (import_name : string) (w : World) :
  sys_modules (w_interp w) !! import_name ≫= module_file = Some None ->
  exists msg,
    PackageStatic._find_root_path import_name None w = (Raise (TypeError msg), w).
Proof.
  intros Hmod. unfold PackageStatic._find_root_path.
  unfold mbind in Hmod. run. unfold sys_modules_get. rewrite Hmod. now eexists.
Qed.

(** C8, counterexample: in a process started from a script, ['__main__']
    is a loaded module with a [__file__]; root resolution returns the
    script's directory, not the current working directory. *)
Lemma find_root_path_main_is_not_cwd :
  fs_cwd (w_fs Sample.world) = "/home/u"
  /\ PackageStatic._find_root_path "__main__" None Sample.world
     = (Return "/srv/app", Sample.world)
  /\ ~ (forall (import_name : string) (w : World),
          import_name = "__main__" ->
          fst (PackageStatic._find_root_path import_name None w)
          = Return (fs_cwd (w_fs w))).
Proof.
  split; [reflexivity|]. split; [vm_compute; reflexivity|].
  intros H. specialize (H "__main__" Sample.world eq_refl).
  vm_compute in H. discriminate H.
Qed.

(** ** Joining paths *)

(** What [safe_join] computes, with the two resolutions spelled out; it
    only reads the working directory and leaves the world as it is. *)
Lemma safe_join_run (directory : string) (paths : list string) (w : World) :
  safe_join directory paths w
  = (let safe_path := pathlib.resolve (fs_cwd (w_fs w)) (pathlib.Path_of [directory]) in
     let full_path := pathlib.resolve (fs_cwd (w_fs w)) (pathlib.Path_of (directory :: paths)) in
     if Str.startswith (pathlib.str full_path) (pathlib.str safe_path)
     then Return full_path else Raise NotFound,
     w).
Proof.
  unfold safe_join, Path_resolve. run.
  destruct (Str.startswith _ _); reflexivity.
Qed.

Lemma safe_join_world (directory : string) (paths : list string) (w : World) :
  snd (safe_join directory paths w) = w.
Proof. rewrite safe_join_run. reflexivity. Qed.

(** ** Serving files *)

(** C5: when the joined path is inside the directory but names no regular
    file (nothing, a directory, or a special entry), [send_from_directory]
    raises [NotFound] and the world is unchanged: no file was opened or
    read. *)
Theorem send_from_directory_not_a_file
  (directory file_name : string) (w : World) (file_path : pathlib.Path) :
  fst (safe_join directory [file_name] w) = Return file_path ->
  (forall content,
      os.stat (w_fs w) (pathlib.str file_path) <> Some (RegularFile content)) ->
  send_from_directory directory file_name w = (Raise NotFound, w).
Proof.
  intros Hjoin Hnode. unfold send_from_directory.
  rewrite (run_bind_return _ _ w file_path w).
  - unfold os.isfile. run.
    destruct (os.stat _ _) as [[content| |stream]|] eqn:Hstat; try reflexivity.
    now destruct (Hnode content).
  - pose proof (safe_join_world directory [file_name] w) as Hworld.
    destruct (safe_join directory [file_name] w) as [r w'].
    cbn in Hjoin, Hworld. now subst.
Qed.

Lemma send_from_directory_not_a_file_witness :
  send_from_directory "/srv/www" "missing.txt" Sample.world = (Raise NotFound, Sample.world)
  /\ send_from_directory "/srv/www" "css" Sample.world = (Raise NotFound, Sample.world).
Proof.
  split.
  - apply (send_from_directory_not_a_file "/srv/www" "missing.txt" Sample.world
             (pathlib.mkPath true ["srv"; "www"; "missing.txt"])).
    + vm_compute. reflexivity.
    + intros content. vm_compute. discriminate.
  - apply (send_from_directory_not_a_file "/srv/www" "css" Sample.world
             (pathlib.mkPath true ["srv"; "www"; "css"])).
    + vm_compute. reflexivity.
    + intros content. vm_compute. discriminate.
Defined.

(** A path that [os.stat] finds has no NUL character and leads to an
    entry. *)
Lemma stat_locate (fs : FileSystem) (name : string) (n : node) :
  os.stat fs name = Some n ->
  Str.contains os.nul name = false
  /\ exists cur, os.locate fs name = Some cur /\ os.node_at fs cur = Some n.
Proof.
  unfold os.stat. destruct (os.locate fs name) as [cur|] eqn:Hlocate; [|discriminate].
  cbn. intros Hnode. split; [|now exists cur].
  unfold os.locate in Hlocate.
  destruct (Str.is_empty name); [discriminate|].
  now destruct (Str.contains os.nul name).
Qed.

(** The walk ends where the names lead, when it ends. *)
Lemma walk_ends (fs : FileSystem) (names cur found : list string) :
  os.walk fs cur names = Some found ->
  found = fold_left pathlib.resolve_step names cur.
Proof.
  revert cur. induction names as [|name names IH]; intros cur; cbn [os.walk fold_left].
  - now intros [= <-].
  - destruct (os.is_dir fs cur); [apply IH | discriminate].
Qed.

(** Empty fields and [.] do not move the walk. *)
Lemma fold_resolve_step_filter (names cur : list string) :
  fold_left pathlib.resolve_step
    (List.filter (fun c => negb (String.eqb c "" || String.eqb c ".")) names) cur
  = fold_left pathlib.resolve_step names cur.
Proof.
  revert cur. induction names as [|name names IH]; intros cur; [reflexivity|].
  cbn [List.filter fold_left].
  destruct (String.eqb name "" || String.eqb name ".") eqn:Hskip; cbn [negb].
  - assert (Hstay : pathlib.resolve_step cur name = cur)
      by (unfold pathlib.resolve_step; now rewrite Hskip).
    rewrite Hstay. apply IH.
  - cbn [fold_left]. apply IH.
Qed.

(** When the file system finds a place for a name, it is the place
    [os.path.realpath] gives. *)
Lemma locate_realpath (fs : FileSystem) (name : string) (cur : list string) :
  os.locate fs name = Some cur -> os.key cur = os.realpath fs name.
Proof.
  unfold os.locate, os.realpath, os.key.
  destruct (_ || _); [discriminate|]. intros Hwalk%walk_ends. subst cur.
  unfold pathlib.Path_of, pathlib.resolve, pathlib.joinpath, pathlib.parse_parts;
    cbn [fold_left pathlib.anchored pathlib.parts].
  destruct (Str.startswith name "/");
    cbn [pathlib.anchored pathlib.parts app]; now rewrite fold_resolve_step_filter.
Qed.

(** What [send_file] does, step by step: the lookup of the type, the
    attempt to open, and, once the file is open, the read and the close. *)
Lemma send_file_run (filename : string) (w : World) :
  send_file filename w
  = let mimetype :=
      or_else (mimetypes_db (w_interp w) (os_path.basename filename))
              DEFAULT_MIMETYPE in
    let opened := log (EvOpen filename "rb") w in
    let closed := log (EvClose filename) (log (EvRead filename) opened) in
    if Str.contains os.nul filename
    then (Raise (ValueError "embedded null byte"), opened)
    else match os.locate (w_fs w) filename with
         | None => (Raise (OSError filename), opened)
         | Some cur =>
             if bool_decide (os.key cur ∈ fs_denied (w_fs w))
             then (Raise (OSError filename), opened)
             else match os.node_at (w_fs w) cur with
                  | Some (RegularFile content) | Some (Special content) =>
                      if bool_decide (os.key cur ∈ fs_faulty (w_fs w))
                      then (Raise (OSError filename), closed)
                      else (Return (mkResponse content mimetype), closed)
                  | _ => (Raise (OSError filename), opened)
                  end
         end.
Proof.
  unfold send_file, mimetypes_guess_type, open_, with_entry, finally, file_read,
    file_close, os.stat, os.faulty.
  run.
  change (Str.contains "w" "rb") with false. change (Str.contains "a" "rb") with false.
  change (Str.contains "x" "rb") with false. change (Str.contains "r" "rb") with true.
  cbv zeta. unfold log. cbn [w_fs w_interp w_trace fh_name].
  destruct (Str.contains os.nul filename); [reflexivity|].
  destruct (os.locate (w_fs w) filename) as [cur|] eqn:Hlocate; [|reflexivity].
  destruct (bool_decide (os.key cur ∈ fs_denied (w_fs w))); [reflexivity|].
  destruct (os.node_at (w_fs w) cur) as [[content| |content]|] eqn:Hnode;
    cbn [w_fs w_interp w_trace fh_name]; rewrite ?Hlocate; cbn [mbind option_bind];
    rewrite ?Hnode; try reflexivity;
    now destruct (bool_decide (os.key cur ∈ fs_faulty (w_fs w))).
Qed.

(** A regular file that can be opened and read is served whole. *)
Lemma send_file_readable (filename : string) (w : World) (content : list Byte.byte) :
  os.stat (w_fs w) filename = Some (RegularFile content) ->
  os.readable (w_fs w) filename = true ->
  send_file filename w
  = (Return (mkResponse content
               (or_else (mimetypes_db (w_interp w) (os_path.basename filename))
                        DEFAULT_MIMETYPE)),
     log (EvClose filename) (log (EvRead filename) (log (EvOpen filename "rb") w))).
Proof.
  intros Hstat Hreadable. rewrite send_file_run. cbv zeta.
  apply stat_locate in Hstat as (-> & cur & Hlocate & Hnode).
  unfold os.readable, os.denied, os.faulty in Hreadable.
  rewrite Hlocate in *. apply andb_true_iff in Hreadable as [Hd Hf].
  apply negb_true_iff in Hd, Hf. now rewrite Hd, Hnode, Hf.
Qed.

Lemma or_else_found (t d : string) : t <> "" -> or_else (Some t) d = t.
Proof. intros Ht. now destruct t. Qed.

(** C6: [send_file] looks the content type up under the base name of the
    path: a type the lookup finds is the content type of the response,
    and when it finds none (or an empty one) the content type is
    ['application/octet-stream'].  For a path that leads to a regular file
    the process can open and read, the response is returned with the whole
    content of that file as its body, after opening, reading and closing
    it. *)
Theorem send_file_response (filename : string) (w : World) (content : list Byte.byte) :
  os.stat (w_fs w) filename = Some (RegularFile content) ->
  os.readable (w_fs w) filename = true ->
  let guessed := mimetypes_db (w_interp w) (os_path.basename filename) in
  exists resp,
    send_file filename w
    = (Return resp,
       log (EvClose filename) (log (EvRead filename) (log (EvOpen filename "rb") w)))
    /\ data resp = content
    /\ (forall t, guessed = Some t -> t <> "" -> mimetype resp = t)
    /\ (guessed = None \/ guessed = Some "" ->
        mimetype resp = "application/octet-stream").
Proof.
  intros Hstat Hreadable guessed.
  exists (mkResponse content (or_else guessed DEFAULT_MIMETYPE)).
  split; [now apply send_file_readable|]. split; [reflexivity|]. split.
  - intros t -> Ht. now apply or_else_found.
  - now intros [-> | ->].
Qed.

Lemma send_file_response_witness :
  exists resp,
    send_file "/srv/www/present.html" Sample.world
    = (Return resp,
       log (EvClose "/srv/www/present.html")
         (log (EvRead "/srv/www/present.html")
            (log (EvOpen "/srv/www/present.html" "rb") Sample.world)))
    /\ data resp = Sample.bytes "<h1>hello</h1>"
    /\ mimetype resp = "text/html".
Proof.
  destruct (send_file_response "/srv/www/present.html" Sample.world
              (Sample.bytes "<h1>hello</h1>"))
    as (resp & Hrun & Hdata & Hfound & _).
  - vm_compute. reflexivity.
  - vm_compute. reflexivity.
  - exists resp. split; [exact Hrun|]. split; [exact Hdata|].
    apply Hfound; [vm_compute; reflexivity | discriminate].
Defined.

(** A file the process may not open is not served, and a path through a
    missing directory leads nowhere: [OSError] in both cases. *)
Example send_file_refused :
  fst (send_file "/srv/www/locked.html" Sample.world)
  = Raise (OSError "/srv/www/locked.html")
  /\ fst (send_file "/srv/www/missing/../present.html" Sample.world)
     = Raise (OSError "/srv/www/missing/../present.html").
Proof. vm_compute. split; reflexivity. Qed.

Example send_from_directory_present :
  fst (send_from_directory "/srv/www" "present.html" Sample.world)
  = Return (mkResponse (Sample.bytes "<h1>hello</h1>") "text/html").
Proof. vm_compute. reflexivity. Qed.

Example send_from_directory_noext :
  fst (send_from_directory "/srv/www" "noext" Sample.world)
  = Return (mkResponse (Sample.bytes "raw") "application/octet-stream").
Proof. vm_compute. reflexivity. Qed.

(** ** Strings and component lists *)

Section StringFacts.

#[local] Arguments String.append !s1 s2 : simpl nomatch.

Lemma append_nil_r (s : string) : s ++ "" = s.
Proof. induction s as [|a s IH]; simpl; [reflexivity | now f_equal]. Qed.

Lemma append_assoc (s t u : string) : (s ++ t) ++ u = s ++ t ++ u.
Proof. induction s as [|a s IH]; simpl; [reflexivity | now f_equal]. Qed.

Lemma startswith_empty (s : string) : Str.startswith s "" = true.
Proof. now destruct s. Qed.

(** A string starts with each of its own prefixes. *)
Lemma startswith_app (p rest : string) : Str.startswith (p ++ rest) p = true.
Proof.
  unfold Str.startswith. induction p as [|a p IH]; cbn.
  - now destruct rest.
  - now destruct (ascii_dec a a).
Qed.

(** A common prefix can be cancelled. *)
Lemma startswith_cancel (x s p : string) :
  Str.startswith (x ++ s) (x ++ p) = Str.startswith s p.
Proof.
  unfold Str.startswith. induction x as [|a x IH]; cbn; [reflexivity|].
  now destruct (ascii_dec a a).
Qed.

Lemma join_app (a b : list string) :
  a <> [] -> b <> [] ->
  Str.join "/" (a ++ b) = Str.join "/" a ++ "/" ++ Str.join "/" b.
Proof.
  intros Ha Hb. induction a as [|x a IH]; [congruence|].
  destruct a as [|y a].
  - destruct b; [congruence | reflexivity].
  - change (Str.join "/" ((x :: y :: a) ++ b))
      with (x ++ "/" ++ Str.join "/" ((y :: a) ++ b)).
    rewrite IH by discriminate.
    change (Str.join "/" (x :: y :: a)) with (x ++ "/" ++ Str.join "/" (y :: a)).
    now rewrite !append_assoc.
Qed.

(** The string of a rooted path starts with the string of each rooted
    path made of its leading components. *)
Lemma str_components_prefix (a b : list string) :
  Str.startswith (pathlib.str (pathlib.mkPath true (a ++ b)))
                 (pathlib.str (pathlib.mkPath true a)) = true.
Proof.
  unfold pathlib.str; cbn [pathlib.anchored pathlib.parts].
  destruct a as [|x a].
  - apply (startswith_app "/").
  - destruct b as [|y b].
    + rewrite app_nil_r, <- (append_nil_r ("/" ++ _)) at 1. apply startswith_app.
    + rewrite join_app by discriminate.
      rewrite <- append_assoc. apply startswith_app.
Qed.

End StringFacts.

(** C3: when the components of the resolved directory are a prefix of the
    components of the resolved join (the join is the directory or lies
    below it), [safe_join] returns the resolved join, a rooted path with
    the directory's components in front, and the world is unchanged. *)
Theorem safe_join_descendant (directory : string) (paths : list string) (w : World) :
  let safe_path := pathlib.resolve (fs_cwd (w_fs w)) (pathlib.Path_of [directory]) in
  let full_path := pathlib.resolve (fs_cwd (w_fs w)) (pathlib.Path_of (directory :: paths)) in
  pathlib.parts safe_path `prefix_of` pathlib.parts full_path ->
  safe_join directory paths w = (Return full_path, w)
  /\ pathlib.anchored full_path = true
  /\ exists below, pathlib.parts full_path = (pathlib.parts safe_path ++ below)%list.
Proof.
  intros safe_path full_path [below Hbelow].
  split; [|split; [reflexivity | now exists below]].
  rewrite safe_join_run. fold safe_path full_path. cbv zeta.
  replace full_path with (pathlib.mkPath true (pathlib.parts safe_path ++ below)%list)
    by (now rewrite <- Hbelow).
  replace safe_path with (pathlib.mkPath true (pathlib.parts safe_path)) at 2
    by reflexivity.
  now rewrite str_components_prefix.
Qed.

Lemma safe_join_descendant_witness :
  safe_join "/srv/www" ["css/./site.css"] Sample.world
    = (Return (pathlib.mkPath true ["srv"; "www"; "css"; "site.css"]), Sample.world)
  /\ true = true
  /\ exists below, ["srv"; "www"; "css"; "site.css"] = (["srv"; "www"] ++ below)%list.
Proof.
  apply (safe_join_descendant "/srv/www" ["css/./site.css"] Sample.world).
  exists ["css"; "site.css"]. reflexivity.
Defined.

(** C1: [safe_join] compares the two resolved paths as strings, so a
    sibling whose name extends the directory's name passes the check:
    from [/a/b], the segment [../b-evil/x] is resolved to [/a/b-evil/x]
    and returned, although its components do not start with those of
    [/a/b]. *)
Theorem safe_join_sibling_shared_prefix (w : World) :
  safe_join "/a/b" ["../b-evil/x"] w
    = (Return (pathlib.mkPath true ["a"; "b-evil"; "x"]), w)
  /\ pathlib.resolve (fs_cwd (w_fs w)) (pathlib.Path_of ["/a/b"])
     = pathlib.mkPath true ["a"; "b"]
  /\ ~ (["a"; "b"] `prefix_of` ["a"; "b-evil"; "x"])
  /\ safe_join "/a/b" ["../b-evil/x"] w <> (Raise NotFound, w).
Proof.
  assert (Hrun : safe_join "/a/b" ["../b-evil/x"] w
                 = (Return (pathlib.mkPath true ["a"; "b-evil"; "x"]), w))
    by (rewrite safe_join_run; reflexivity).
  split; [exact Hrun|]. split; [reflexivity|]. split.
  - intros [k Hk]. discriminate Hk.
  - rewrite Hrun. discriminate.
Qed.

(** The same defect seen from a request: a file of the sibling directory
    [/srv/www-evil] is served from [/srv/www]. *)
Example send_from_directory_sibling :
  fst (send_from_directory "/srv/www" "../www-evil/x" Sample.world)
  = Return (mkResponse (Sample.bytes "secret") "application/octet-stream").
Proof. vm_compute. reflexivity. Qed.

(** ** Components never contain a slash *)

Section Components.

#[local] Arguments String.append !s1 s2 : simpl nomatch.

Lemma split_slash_free (s : string) : Forall slash_free (Str.split Str.sep s).
Proof.
  induction s as [|a s IH]; simpl.
  - repeat constructor.
  - destruct (Ascii.eqb a Str.sep) eqn:Ha.
    + constructor; [reflexivity | exact IH].
    + destruct (Str.split Str.sep s) as [|f fs]; inversion IH; subst;
        constructor; try assumption; unfold slash_free; simpl;
        rewrite Ha; simpl; try reflexivity; assumption.
Qed.

Lemma parse_parts_slash_free (arg : string) :
  Forall slash_free (pathlib.parts (pathlib.parse_parts arg)).
Proof.
  unfold pathlib.parse_parts; cbn [pathlib.parts].
  induction (split_slash_free arg) as [|f fs Hf Hfs IH]; simpl.
  - constructor.
  - destruct (negb _); [constructor|]; assumption.
Qed.

Lemma Path_of_slash_free (args : list string) :
  Forall slash_free (pathlib.parts (pathlib.Path_of args)).
Proof.
  unfold pathlib.Path_of.
  assert (Hgen : forall p, Forall slash_free (pathlib.parts p) ->
            Forall slash_free
              (pathlib.parts
                 (fold_left (fun p a => pathlib.joinpath p (pathlib.parse_parts a)) args p))).
  { induction args as [|a args IH]; intros p Hp; simpl; [exact Hp|].
    apply IH. unfold pathlib.joinpath.
    destruct (pathlib.anchored (pathlib.parse_parts a)).
    - apply parse_parts_slash_free.
    - cbn [pathlib.parts]. apply Forall_app. split; [exact Hp|].
      apply parse_parts_slash_free. }
  apply Hgen. constructor.
Qed.

Lemma removelast_slash_free (l : list string) :
  Forall slash_free l -> Forall slash_free (removelast l).
Proof.
  induction 1 as [|x l Hx Hl IH]; simpl; [constructor|].
  destruct l; [constructor | constructor; assumption].
Qed.

Lemma resolve_slash_free (cwd : string) (p : pathlib.Path) :
  Forall slash_free (pathlib.parts p) ->
  Forall slash_free (pathlib.parts (pathlib.resolve cwd p)).
Proof.
  unfold pathlib.resolve; cbn [pathlib.parts]. intros Hp.
  assert (Hbase : Forall slash_free
                    (if pathlib.anchored p then []
                     else pathlib.parts (pathlib.parse_parts cwd)))
    by (destruct (pathlib.anchored p); [constructor | apply parse_parts_slash_free]).
  revert Hbase. generalize (if pathlib.anchored p then []
                            else pathlib.parts (pathlib.parse_parts cwd)).
  induction Hp as [|name names Hname Hnames IH]; intros base Hbase; simpl;
    [exact Hbase|].
  apply IH. unfold pathlib.resolve_step.
  destruct (_ || _); [exact Hbase|].
  destruct (String.eqb name "..").
  - now apply removelast_slash_free.
  - apply Forall_app. split; [exact Hbase | now constructor].
Qed.

(** The join with [..], [..] and [etc/passwd]: two components are
    dropped from the resolved directory, then [etc] and [passwd] are
    appended. *)
Lemma resolve_up_up_etc_passwd (cwd directory : string) :
  pathlib.parts (pathlib.resolve cwd
                   (pathlib.Path_of [directory; ".."; ".."; "etc/passwd"]))
  = (removelast (removelast
       (pathlib.parts (pathlib.resolve cwd (pathlib.Path_of [directory]))))
     ++ ["etc"; "passwd"])%list.
Proof.
  unfold pathlib.Path_of. simpl fold_left.
  set (p := pathlib.joinpath _ (pathlib.parse_parts directory)).
  change (pathlib.parse_parts "..") with (pathlib.mkPath false [".."]).
  change (pathlib.parse_parts "etc/passwd") with (pathlib.mkPath false ["etc"; "passwd"]).
  unfold pathlib.joinpath at 1 2 3. cbn [pathlib.anchored pathlib.parts].
  unfold pathlib.resolve. cbn [pathlib.anchored pathlib.parts].
  rewrite !fold_left_app. simpl fold_left.
  set (base := fold_left _ _ _).
  change (pathlib.resolve_step base "..") with (removelast base).
  change (pathlib.resolve_step (removelast base) "..") with (removelast (removelast base)).
  unfold pathlib.resolve_step. simpl. now rewrite <- app_assoc.
Qed.

End Components.

(** ** Climbing out of the directory *)

Section Traversal.

#[local] Arguments String.append !s1 s2 : simpl nomatch.

Ltac next_char s :=
  let a := fresh "a" in
  destruct s as [|a s]; simpl in *; try discriminate; try reflexivity;
  try (destruct (ascii_dec a _) as [->|]; simpl in *;
       try discriminate; try reflexivity).

(** A slash-free name that starts [etc/passwd] starts [etc]. *)
Lemma sole_component_mismatch (c : string) :
  slash_free c ->
  Str.startswith "etc" c = false ->
  Str.startswith "etc/passwd" c = false.
Proof.
  unfold slash_free, Str.startswith. intros Hfree Hetc.
  do 4 next_char c.
Qed.

(** Two last components [d/c] start [etc/passwd] only when [d] is [etc]
    and [c] starts [passwd]. *)
Lemma last_two_mismatch (d c : string) :
  slash_free d ->
  Str.startswith "passwd" c = false ->
  Str.startswith "etc/passwd" (d ++ "/" ++ c) = false.
Proof.
  unfold slash_free, Str.startswith. intros Hfree Hpasswd.
  do 4 next_char d; assumption.
Qed.

End Traversal.

Section TraversalSharp.

#[local] Arguments String.append !s1 s2 : simpl nomatch.

Ltac step_char s :=
  let a := fresh "a" in
  destruct s as [|a s]; simpl in *; try discriminate; try reflexivity;
  try congruence;
  try (destruct (ascii_dec a _) as [->|]; simpl in *;
       try discriminate; try reflexivity; try congruence).

(** Two last components [d/c] do not start [etc/passwd] when [d] is not
    [etc]. *)
Lemma second_last_mismatch (d c : string) :
  slash_free d -> d <> "etc" ->
  Str.startswith "etc/passwd" (d ++ "/" ++ c) = false.
Proof.
  unfold slash_free, Str.startswith. intros Hfree Hetc.
  do 4 step_char d.
Qed.

End TraversalSharp.

(** C2, as the code has it: take a directory without NUL character whose
    join with [..], [..] and [etc/passwd] resolves to the resolved
    directory less its last two components, followed by [etc] and [passwd]
    (what resolution gives when no component on the way is a symbolic
    link).  The join raises
    [NotFound], with the world unchanged, unless the resolved directory is
    the root, is one component that is a string prefix of [etc], or ends in
    [etc] followed by a string prefix of [passwd]. *)
Theorem safe_join_up_up_etc_passwd (directory : string) (w : World) :
  let safe :=
    pathlib.parts (pathlib.resolve (fs_cwd (w_fs w)) (pathlib.Path_of [directory])) in
  let full :=
    pathlib.parts
      (pathlib.resolve (fs_cwd (w_fs w))
         (pathlib.Path_of [directory; ".."; ".."; "etc/passwd"])) in
  Str.contains os.nul directory = false ->
  full = (removelast (removelast safe) ++ ["etc"; "passwd"])%list ->
  safe <> [] ->
  (forall c, safe = [c] -> Str.startswith "etc" c = false) ->
  (forall front c, safe = (front ++ ["etc"; c])%list ->
                   Str.startswith "passwd" c = false) ->
  safe_join directory [".."; ".."; "etc/passwd"] w = (Raise NotFound, w).
Proof.
  intros safe full _ Hfull Hroot Hsole Hlast. rewrite safe_join_run. cbv zeta.
  pose proof (resolve_slash_free (fs_cwd (w_fs w)) _ (Path_of_slash_free [directory]))
    as Hfree.
  fold safe in Hfree.
  change (pathlib.resolve (fs_cwd (w_fs w))
            (pathlib.Path_of [directory; ".."; ".."; "etc/passwd"]))
    with (pathlib.mkPath true full).
  change (pathlib.resolve (fs_cwd (w_fs w)) (pathlib.Path_of [directory]))
    with (pathlib.mkPath true safe).
  assert (Hno : Str.startswith (pathlib.str (pathlib.mkPath true full))
                               (pathlib.str (pathlib.mkPath true safe)) = false);
    [|now rewrite Hno].
  rewrite Hfull. clear Hfull full. revert Hroot Hsole Hlast Hfree.
  generalize safe. clear safe. intros safe Hroot Hsole Hlast Hfree.
  destruct safe as [|c0 safe0] using rev_ind; [congruence|]. clear IHsafe0 Hroot.
  rename safe0 into front, c0 into c.
  apply Forall_app in Hfree as [Hfront_free Hc]. inversion_clear Hc as [|? ? Hc' _].
  rewrite removelast_last.
  unfold pathlib.str; cbn [pathlib.anchored pathlib.parts].
  destruct front as [|d front _] using rev_ind.
  - change (Str.startswith ("/" ++ "etc/passwd") ("/" ++ c) = false).
    rewrite startswith_cancel. apply sole_component_mismatch; [exact Hc'|].
    now apply Hsole.
  - rewrite removelast_last, <- app_assoc. simpl app.
    apply Forall_app in Hfront_free as [_ Hd]. inversion_clear Hd as [|? ? Hd' _].
    assert (Hpair : Str.startswith "etc/passwd" (d ++ "/" ++ c) = false).
    { destruct (String.eqb d "etc") eqn:Hd.
      - apply String.eqb_eq in Hd. subst d. apply last_two_mismatch; [exact Hd'|].
        apply (Hlast front). now rewrite <- app_assoc.
      - apply String.eqb_neq in Hd. now apply second_last_mismatch. }
    destruct front as [|x front].
    + change (Str.startswith ("/" ++ "etc/passwd") ("/" ++ d ++ "/" ++ c) = false).
      now rewrite startswith_cancel.
    + rewrite !join_app by discriminate.
      change (Str.join "/" ["etc"; "passwd"]) with ("etc" ++ "/" ++ "passwd").
      change (Str.join "/" [d; c]) with (d ++ "/" ++ c).
      now rewrite !startswith_cancel.
Qed.

Lemma safe_join_up_up_etc_passwd_witness :
  safe_join "/srv/etc" [".."; ".."; "etc/passwd"] Sample.world
    = (Raise NotFound, Sample.world)
  /\ safe_join "/home/p" [".."; ".."; "etc/passwd"] Sample.world
     = (Raise NotFound, Sample.world).
Proof.
  split.
  - apply (safe_join_up_up_etc_passwd "/srv/etc" Sample.world).
    + reflexivity.
    + reflexivity.
    + discriminate.
    + intros c [=].
    + intros front c Hsafe. exfalso.
      change (["srv"; "etc"] = (front ++ ["etc"; c])%list) in Hsafe.
      destruct front as [|x [|y [|z front]]]; discriminate Hsafe.
  - apply (safe_join_up_up_etc_passwd "/home/p" Sample.world).
    + reflexivity.
    + reflexivity.
    + discriminate.
    + intros c [=].
    + intros front c Hsafe. exfalso.
      change (["home"; "p"] = (front ++ ["etc"; c])%list) in Hsafe.
      destruct front as [|x [|y [|z front]]]; discriminate Hsafe.
Defined.

(** C2, counterexample: from the root directory the same join is
    [/etc/passwd], which lies below the root, and it is returned. *)
Lemma safe_join_up_up_from_root :
  safe_join "/" [".."; ".."; "etc/passwd"] Sample.world
    = (Return (pathlib.mkPath true ["etc"; "passwd"]), Sample.world)
  /\ ~ (forall (directory : string) (w : World),
          fst (safe_join directory [".."; ".."; "etc/passwd"] w) = Raise NotFound).
Proof.
  split; [rewrite safe_join_run; reflexivity|].
  intros H. specialize (H "/" Sample.world).
  rewrite safe_join_run in H. discriminate H.
Qed.

(** The same join from [/etc] is again below the directory. *)
Example safe_join_up_up_from_etc :
  fst (safe_join "/etc" [".."; ".."; "etc/passwd"] Sample.world)
  = Return (pathlib.mkPath true ["etc"; "passwd"]).
Proof. rewrite safe_join_run. reflexivity. Qed.

(** ** What resolution keeps *)

Section Resolution.

#[local] Arguments String.append !s1 s2 : simpl nomatch.

Lemma parse_parts_clean (arg : string) :
  Forall clean (pathlib.parts (pathlib.parse_parts arg)).
Proof.
  unfold pathlib.parse_parts; cbn [pathlib.parts].
  induction (split_slash_free arg) as [|f fs Hf Hfs IH]; simpl; [constructor|].
  destruct (String.eqb f "") eqn:Hempty; [exact IH|].
  destruct (String.eqb f ".") eqn:Hdot; [exact IH|]. simpl.
  apply String.eqb_neq in Hempty, Hdot.
  constructor; [now repeat split | exact IH].
Qed.

Lemma joinpath_Forall (P : string -> Prop) (p : pathlib.Path) (arg : string) :
  Forall P (pathlib.parts p) ->
  Forall P (pathlib.parts (pathlib.parse_parts arg)) ->
  Forall P (pathlib.parts (pathlib.joinpath p (pathlib.parse_parts arg))).
Proof.
  intros Hp Harg. unfold pathlib.joinpath.
  destruct (pathlib.anchored (pathlib.parse_parts arg)); [exact Harg|].
  cbn [pathlib.parts]. apply Forall_app. now split.
Qed.

Lemma Path_of_clean (args : list string) :
  Forall clean (pathlib.parts (pathlib.Path_of args)).
Proof.
  unfold pathlib.Path_of.
  assert (Hstart : Forall clean (pathlib.parts (pathlib.mkPath false [])))
    by constructor.
  revert Hstart. generalize (pathlib.mkPath false []).
  induction args as [|a args IH]; intros p Hp; simpl; [exact Hp|].
  apply IH, joinpath_Forall; [exact Hp | apply parse_parts_clean].
Qed.

Lemma removelast_Forall (P : string -> Prop) (l : list string) :
  Forall P l -> Forall P (removelast l).
Proof.
  induction 1 as [|x l Hx Hl IH]; simpl; [constructor|].
  destruct l; [constructor | now constructor].
Qed.

(** The walk keeps every property of the components it starts from that
    the plain names it meets have too. *)
Lemma walk_Forall (P : string -> Prop) (names base : list string) :
  Forall (fun c => plain c -> P c) names ->
  Forall P base ->
  Forall P (fold_left pathlib.resolve_step names base).
Proof.
  intros Hnames. revert base.
  induction Hnames as [|name names Hname Hnames IH]; intros base Hbase; simpl;
    [exact Hbase|].
  apply IH. unfold pathlib.resolve_step.
  destruct (String.eqb name "") eqn:Hempty; [exact Hbase|].
  destruct (String.eqb name ".") eqn:Hdot; [exact Hbase|]. simpl.
  destruct (String.eqb name "..") eqn:Hup; [now apply removelast_Forall|].
  apply String.eqb_neq in Hempty, Hdot, Hup.
  apply Forall_app. split; [exact Hbase|]. constructor; [|constructor].
  now apply Hname.
Qed.

Lemma resolve_clean (cwd : string) (p : pathlib.Path) :
  Forall clean (pathlib.parts p) ->
  Forall clean (pathlib.parts (pathlib.resolve cwd p)).
Proof.
  intros Hp. unfold pathlib.resolve; cbn [pathlib.parts]. apply walk_Forall.
  - eapply Forall_impl; [exact Hp | auto].
  - destruct (pathlib.anchored p); [constructor | apply parse_parts_clean].
Qed.

(** No [..] survives resolution, unless the working directory brings it. *)
Lemma resolve_no_up (cwd : string) (p : pathlib.Path) :
  Forall (fun c => c <> "..") (pathlib.parts (pathlib.parse_parts cwd)) ->
  Forall (fun c => c <> "..") (pathlib.parts (pathlib.resolve cwd p)).
Proof.
  intros Hcwd. unfold pathlib.resolve; cbn [pathlib.parts]. apply walk_Forall.
  - apply Forall_forall. now intros c _ (_ & _ & Hup).
  - destruct (pathlib.anchored p); [constructor | exact Hcwd].
Qed.

(** Plain names are appended one after the other. *)
Lemma walk_plain (names base : list string) :
  Forall plain names -> fold_left pathlib.resolve_step names base = (base ++ names)%list.
Proof.
  intros Hnames. revert base.
  induction Hnames as [|name names (Hempty & Hdot & Hup) _ IH]; intros base; simpl.
  - now rewrite app_nil_r.
  - rewrite IH. unfold pathlib.resolve_step.
    apply String.eqb_neq in Hempty, Hdot, Hup. rewrite Hempty, Hdot, Hup.
    simpl. now rewrite <- app_assoc.
Qed.

End Resolution.

(** ** What the string comparison lets through *)

Section StringPrefix.

#[local] Arguments String.append !s1 s2 : simpl nomatch.

Lemma slash_free_cons (a : ascii) (s : string) :
  slash_free (String a s) <-> a <> Str.sep /\ slash_free s.
Proof.
  unfold slash_free. simpl. rewrite orb_false_iff, Ascii.eqb_neq. reflexivity.
Qed.

(** A slash-free name that starts [y/z] starts [y]. *)
Lemma startswith_before_sep (x y z : string) :
  slash_free x ->
  Str.startswith (y ++ String Str.sep z) x = true -> Str.startswith y x = true.
Proof.
  unfold Str.startswith. revert y.
  induction x as [|a x IH]; intros y Hfree Hpre; [now destruct y|].
  apply slash_free_cons in Hfree as [Ha Hx].
  destruct y as [|b y]; cbn [String.prefix String.append] in *.
  - destruct (ascii_dec a Str.sep); [contradiction | discriminate].
  - destruct (ascii_dec a b); [now apply IH | discriminate].
Qed.

(** A slash-free name does not start with a string holding a slash. *)
Lemma startswith_sep_inside (x a y : string) :
  slash_free y -> Str.startswith y (x ++ String Str.sep a) = false.
Proof.
  unfold Str.startswith. revert y.
  induction x as [|c x IH]; intros y Hfree; destruct y as [|d y];
    cbn [String.prefix String.append]; try reflexivity; apply slash_free_cons in Hfree as [Hd Hy].
  - destruct (ascii_dec Str.sep d); [congruence | reflexivity].
  - destruct (ascii_dec c d); [now apply IH | reflexivity].
Qed.

(** Two strings [x/a] and [y/b] with slash-free [x] and [y]: the first
    starts the second only when [x] is [y] and [a] starts [b]. *)
Lemma startswith_same_component (x y a b : string) :
  slash_free x -> slash_free y ->
  Str.startswith (y ++ String Str.sep b) (x ++ String Str.sep a) = true ->
  x = y /\ Str.startswith b a = true.
Proof.
  unfold Str.startswith. revert y.
  induction x as [|c x IH]; intros y Hx Hy Hpre; destruct y as [|d y];
    cbn [String.prefix String.append] in *.
  - destruct (ascii_dec Str.sep Str.sep); [now split | discriminate].
  - apply slash_free_cons in Hy as [Hd _].
    destruct (ascii_dec Str.sep d); [congruence | discriminate].
  - apply slash_free_cons in Hx as [Hc _].
    destruct (ascii_dec c Str.sep); [contradiction | discriminate].
  - apply slash_free_cons in Hx as [_ Hx]. apply slash_free_cons in Hy as [_ Hy].
    destruct (ascii_dec c d) as [->|]; [|discriminate].
    destruct (IH y Hx Hy Hpre) as [-> Hab]. now split.
Qed.

Lemma join_cons (x y : string) (l : list string) :
  Str.join "/" (x :: y :: l) = x ++ String Str.sep (Str.join "/" (y :: l)).
Proof. reflexivity. Qed.

(** When the joined components of [S] start the joined components of [F],
    the two lists agree up to the last component of [S], which starts the
    component of [F] at its place. *)
Lemma join_startswith_components (S F : list string) :
  S <> [] -> Forall clean S -> Forall slash_free F ->
  Str.startswith (Str.join "/" F) (Str.join "/" S) = true ->
  exists front c c' rest,
    S = (front ++ [c])%list /\ F = (front ++ c' :: rest)%list
    /\ Str.startswith c' c = true.
Proof.
  intros Hne HS. revert F.
  induction HS as [|x S (Hx & _ & Hxfree) HS IH]; [congruence|]. clear Hne.
  intros F HF Hpre. destruct S as [|x2 S].
  - exists [], x. destruct HF as [|y F Hy HF].
    + destruct x; [congruence | discriminate Hpre].
    + exists y, F. repeat split. destruct F as [|y2 F]; [exact Hpre|].
      rewrite join_cons in Hpre. now apply startswith_before_sep in Hpre.
  - rewrite join_cons in Hpre. destruct HF as [|y F Hy HF].
    + unfold Str.startswith in Hpre. now destruct x.
    + destruct F as [|y2 F].
      * simpl in Hpre. now rewrite startswith_sep_inside in Hpre.
      * rewrite join_cons in Hpre.
        apply startswith_same_component in Hpre as [-> Hpre]; [|assumption..].
        destruct (IH ltac:(discriminate) (y2 :: F) HF Hpre)
          as (front & c & c' & rest & HS' & HF' & Hc).
        exists (y :: front), c, c', rest. simpl. now rewrite HS', HF'.
Qed.

End StringPrefix.

(** ** More on joining *)

Section Joining.

#[local] Arguments String.append !s1 s2 : simpl nomatch.

Lemma clean_slash_free (l : list string) : Forall clean l -> Forall slash_free l.
Proof.
  intros Hclean. eapply Forall_impl; [exact Hclean|]. now intros c (_ & _ & Hfree).
Qed.

Lemma safe_parts_clean (cwd : string) (args : list string) :
  Forall clean (pathlib.parts (pathlib.resolve cwd (pathlib.Path_of args))).
Proof. apply resolve_clean, Path_of_clean. Qed.

(** The test of [safe_join], on components. *)
Lemma startswith_str_components (F S : list string) :
  Forall clean S -> Forall slash_free F ->
  Str.startswith (pathlib.str (pathlib.mkPath true F))
                 (pathlib.str (pathlib.mkPath true S)) = true ->
  S = [] \/
  exists front c c' rest,
    S = (front ++ [c])%list /\ F = (front ++ c' :: rest)%list
    /\ Str.startswith c' c = true.
Proof.
  intros HS HF. unfold pathlib.str; cbn [pathlib.anchored pathlib.parts].
  rewrite startswith_cancel. intros Hpre.
  destruct S as [|x S]; [now left | right].
  now apply join_startswith_components.
Qed.

(** X1: whatever [safe_join] returns lies in the parent of the resolved
    directory, under a name that begins with the directory's name: the
    components agree up to the directory's last one, which is a string
    prefix of the component at its place (or the directory is the root). *)
Theorem safe_join_beside_directory
  (directory : string) (paths : list string) (w : World) (p : pathlib.Path) :
  fst (safe_join directory paths w) = Return p ->
  let safe := pathlib.parts
                (pathlib.resolve (fs_cwd (w_fs w)) (pathlib.Path_of [directory])) in
  safe = [] \/
  exists front c c' rest,
    safe = (front ++ [c])%list /\ pathlib.parts p = (front ++ c' :: rest)%list
    /\ Str.startswith c' c = true.
Proof.
  rewrite safe_join_run. cbv zeta. cbn [fst].
  destruct (Str.startswith _ _) eqn:Hpre; [|discriminate].
  intros [= <-]. apply startswith_str_components.
  - apply safe_parts_clean.
  - apply clean_slash_free, safe_parts_clean.
  - exact Hpre.
Qed.

Lemma safe_join_beside_directory_witness :
  [ "srv"; "www" ] = [] \/
  exists front c c' rest,
    [ "srv"; "www" ] = (front ++ [c])%list
    /\ [ "srv"; "www-evil"; "x" ] = (front ++ c' :: rest)%list
    /\ Str.startswith c' c = true.
Proof.
  apply (safe_join_beside_directory "/srv/www" ["../www-evil/x"] Sample.world
           (pathlib.mkPath true ["srv"; "www-evil"; "x"])).
  rewrite safe_join_run. reflexivity.
Defined.

(** X2: a join that resolves to fewer components than the directory has
    climbed above it and is refused. *)
Theorem safe_join_above_directory (directory : string) (paths : list string) (w : World) :
  length (pathlib.parts
            (pathlib.resolve (fs_cwd (w_fs w)) (pathlib.Path_of (directory :: paths))))
  < length (pathlib.parts
              (pathlib.resolve (fs_cwd (w_fs w)) (pathlib.Path_of [directory]))) ->
  safe_join directory paths w = (Raise NotFound, w).
Proof.
  intros Hshort. rewrite safe_join_run. cbv zeta.
  pose proof (safe_parts_clean (fs_cwd (w_fs w)) [directory]) as HS.
  pose proof (clean_slash_free _ (safe_parts_clean (fs_cwd (w_fs w)) (directory :: paths)))
    as HF.
  set (safe_path := pathlib.resolve _ (pathlib.Path_of [directory])) in *.
  set (full_path := pathlib.resolve _ (pathlib.Path_of (directory :: paths))) in *.
  destruct (Str.startswith _ _) eqn:Hpre; [exfalso | reflexivity].
  change (Str.startswith
            (pathlib.str (pathlib.mkPath true (pathlib.parts full_path)))
            (pathlib.str (pathlib.mkPath true (pathlib.parts safe_path))) = true) in Hpre.
  revert Hshort Hpre HS HF.
  generalize (pathlib.parts full_path), (pathlib.parts safe_path).
  intros F S Hshort Hpre HS HF.
  destruct (startswith_str_components F S HS HF Hpre)
    as [-> | (front & c & c' & rest & -> & -> & _)].
  - simpl in Hshort. lia.
  - rewrite !length_app in Hshort. simpl in Hshort. lia.
Qed.

Lemma safe_join_above_directory_witness :
  safe_join "/srv/www" [".."] Sample.world = (Raise NotFound, Sample.world).
Proof.
  apply (safe_join_above_directory "/srv/www" [".."] Sample.world).
  vm_compute. lia.
Defined.

End Joining.

(** ** From a path to its string and back *)

Section RoundTrip.

#[local] Arguments String.append !s1 s2 : simpl nomatch.

Lemma split_slash_free_id (x : string) :
  slash_free x -> Str.split Str.sep x = [x].
Proof.
  induction x as [|a x IH]; intros Hfree; [reflexivity|].
  apply slash_free_cons in Hfree as [Ha Hx]. apply Ascii.eqb_neq in Ha.
  cbn [Str.split]. now rewrite Ha, IH.
Qed.

Lemma split_app_sep (x s : string) :
  slash_free x ->
  Str.split Str.sep (x ++ String Str.sep s) = x :: Str.split Str.sep s.
Proof.
  induction x as [|a x IH]; intros Hfree; cbn [String.append Str.split].
  - now rewrite Ascii.eqb_refl.
  - apply slash_free_cons in Hfree as [Ha Hx]. apply Ascii.eqb_neq in Ha.
    now rewrite Ha, IH.
Qed.

Lemma split_join (cs : list string) :
  cs <> [] -> Forall slash_free cs -> Str.split Str.sep (Str.join "/" cs) = cs.
Proof.
  intros Hne Hfree. induction Hfree as [|x cs Hx Hcs IH]; [congruence|].
  destruct cs as [|y cs].
  - now apply split_slash_free_id.
  - rewrite join_cons, split_app_sep by exact Hx. now rewrite IH.
Qed.

Lemma filter_clean (cs : list string) :
  Forall clean cs ->
  List.filter (fun c => negb (String.eqb c "" || String.eqb c ".")) cs = cs.
Proof.
  induction 1 as [|c cs (Hempty & Hdot & _) _ IH]; [reflexivity|].
  apply String.eqb_neq in Hempty, Hdot. simpl. now rewrite Hempty, Hdot, IH.
Qed.

(** Parsing the string of a rooted path with clean components gives the
    path back. *)
Lemma Path_of_str (p : pathlib.Path) :
  pathlib.anchored p = true -> Forall clean (pathlib.parts p) ->
  pathlib.Path_of [pathlib.str p] = p.
Proof.
  destruct p as [a cs]; cbn [pathlib.anchored pathlib.parts]. intros -> Hclean.
  unfold pathlib.Path_of, pathlib.str; cbn [fold_left pathlib.anchored pathlib.parts].
  unfold pathlib.joinpath, pathlib.parse_parts; cbn [pathlib.anchored pathlib.parts].
  rewrite (startswith_app "/"). f_equal.
  change ("/" ++ Str.join "/" cs) with (String Str.sep (Str.join "/" cs)).
  cbn [Str.split]. rewrite Ascii.eqb_refl. cbn [List.filter String.eqb orb negb].
  destruct cs as [|c cs]; [reflexivity|].
  rewrite split_join; [now apply filter_clean | discriminate |].
  now apply clean_slash_free.
Qed.

(** Resolving a rooted path with clean components and no [..] changes
    nothing. *)
Lemma resolve_fixed (cwd : string) (p : pathlib.Path) :
  pathlib.anchored p = true ->
  Forall clean (pathlib.parts p) -> Forall (fun c => c <> "..") (pathlib.parts p) ->
  pathlib.resolve cwd p = p.
Proof.
  destruct p as [a cs]; cbn [pathlib.anchored pathlib.parts]. intros -> Hclean Hup.
  unfold pathlib.resolve; cbn [pathlib.anchored pathlib.parts].
  rewrite walk_plain; [reflexivity|].
  rewrite Forall_forall in *. intros c Hc.
  destruct (Hclean c Hc) as (Hempty & Hdot & _). repeat split; auto.
Qed.

(** X4: a path [safe_join] returns is rooted and normalised (no empty
    component, no [.], no slash inside a component and, when the working
    directory has none, no [..]); its string names the same path again:
    [safe_join] of that string alone returns it, and it is the string the
    file system looks it up under. *)
Theorem safe_join_normalised
  (directory : string) (paths : list string) (w : World) (p : pathlib.Path) :
  fst (safe_join directory paths w) = Return p ->
  Forall (fun c => c <> "..") (pathlib.parts (pathlib.parse_parts (fs_cwd (w_fs w)))) ->
  pathlib.anchored p = true
  /\ Forall clean (pathlib.parts p)
  /\ Forall (fun c => c <> "..") (pathlib.parts p)
  /\ safe_join (pathlib.str p) [] w = (Return p, w)
  /\ os.realpath (w_fs w) (pathlib.str p) = pathlib.str p.
Proof.
  rewrite safe_join_run. cbv zeta. cbn [fst].
  destruct (Str.startswith _ _); [|discriminate]. intros [= <-] Hcwd.
  set (p := pathlib.resolve _ _).
  assert (Hclean : Forall clean (pathlib.parts p)) by apply safe_parts_clean.
  assert (Hup : Forall (fun c => c <> "..") (pathlib.parts p))
    by now apply resolve_no_up.
  assert (Hagain : pathlib.resolve (fs_cwd (w_fs w)) (pathlib.Path_of [pathlib.str p]) = p)
    by (rewrite Path_of_str by (reflexivity || assumption); now apply resolve_fixed).
  repeat split; try assumption.
  - rewrite safe_join_run. cbv zeta. rewrite Hagain.
    rewrite <- (append_nil_r (pathlib.str p)) at 1. now rewrite startswith_app.
  - unfold os.realpath. now rewrite Hagain.
Qed.

Lemma safe_join_normalised_witness :
  true = true
  /\ Forall clean ["home"; "u"; "site"]
  /\ Forall (fun c => c <> "..") ["home"; "u"; "site"]
  /\ safe_join "/home/u/site" [] Sample.world
     = (Return (pathlib.mkPath true ["home"; "u"; "site"]), Sample.world)
  /\ os.realpath (w_fs Sample.world) "/home/u/site" = "/home/u/site".
Proof.
  apply (safe_join_normalised "www/.." ["./site//"] Sample.world
           (pathlib.mkPath true ["home"; "u"; "site"])).
  - rewrite safe_join_run. reflexivity.
  - repeat constructor; discriminate.
Defined.

End RoundTrip.

(** ** More on serving files *)

Section Serving.

#[local] Arguments String.append !s1 s2 : simpl nomatch.


(** What [send_from_directory] does. *)
Lemma send_from_directory_run (directory file_name : string) (w : World) :
  send_from_directory directory file_name w
  = let safe_path := pathlib.resolve (fs_cwd (w_fs w)) (pathlib.Path_of [directory]) in
    let full_path :=
      pathlib.resolve (fs_cwd (w_fs w)) (pathlib.Path_of [directory; file_name]) in
    if Str.startswith (pathlib.str full_path) (pathlib.str safe_path) then
      match os.stat (w_fs w) (pathlib.str full_path) with
      | Some (RegularFile _) => send_file (pathlib.str full_path) w
      | _ => (Raise NotFound, w)
      end
    else (Raise NotFound, w).
Proof.
  unfold send_from_directory. unfold mbind at 1, IO_bind.
  rewrite safe_join_run. cbv zeta.
  destruct (Str.startswith _ _); [|reflexivity].
  unfold os.isfile. run.
  now destruct (os.stat _ _) as [[| |]|].
Qed.

(** X6: what a response of [send_from_directory] stands for.  When a
    response is returned, the join passed the test of [safe_join], the
    resolved join names a regular file, the body is the content of that
    file, the file system is unchanged and that one path was opened, read
    and closed.  When [NotFound] is raised, the world is untouched: no
    file was opened. *)
Theorem send_from_directory_sound (directory file_name : string) (w : World) :
  let safe_path := pathlib.resolve (fs_cwd (w_fs w)) (pathlib.Path_of [directory]) in
  let full_path :=
    pathlib.resolve (fs_cwd (w_fs w)) (pathlib.Path_of [directory; file_name]) in
  (forall resp w',
     send_from_directory directory file_name w = (Return resp, w') ->
     Str.startswith (pathlib.str full_path) (pathlib.str safe_path) = true
     /\ os.stat (w_fs w) (pathlib.str full_path) = Some (RegularFile (data resp))
     /\ w_fs w' = w_fs w
     /\ w_trace w'
        = (w_trace w ++ [EvOpen (pathlib.str full_path) "rb";
                         EvRead (pathlib.str full_path);
                         EvClose (pathlib.str full_path)])%list)
  /\ (forall w',
        send_from_directory directory file_name w = (Raise NotFound, w') -> w' = w).
Proof.
  intros safe_path full_path. rewrite send_from_directory_run. cbv zeta.
  fold safe_path full_path.
  destruct (Str.startswith _ _); [|split; [discriminate | now intros w' [= <-]]].
  destruct (os.stat _ _) as [[content| |]|] eqn:Hstat;
    try (split; [discriminate | now intros w' [= <-]]).
  rewrite send_file_run. cbv zeta.
  apply stat_locate in Hstat as (-> & cur & -> & ->).
  destruct (bool_decide (os.key cur ∈ fs_denied (w_fs w)));
    [split; [discriminate | intros w'; discriminate]|].
  destruct (bool_decide (os.key cur ∈ fs_faulty (w_fs w)));
    [split; [discriminate | intros w'; discriminate]|].
  split; [|intros w'; discriminate].
  intros resp w' [= <- <-]. repeat split.
  cbn [log w_trace]. now rewrite <- !app_assoc.
Qed.

Lemma send_from_directory_sound_witness :
  Str.startswith "/srv/www/present.html" "/srv/www" = true
  /\ os.stat (w_fs Sample.world) "/srv/www/present.html"
     = Some (RegularFile (Sample.bytes "<h1>hello</h1>"))
  /\ w_fs Sample.world = w_fs Sample.world
  /\ [EvOpen "/srv/www/present.html" "rb"; EvRead "/srv/www/present.html";
      EvClose "/srv/www/present.html"]
     = ([] ++ [EvOpen "/srv/www/present.html" "rb"; EvRead "/srv/www/present.html";
               EvClose "/srv/www/present.html"])%list.
Proof.
  destruct (send_from_directory_sound "/srv/www" "present.html" Sample.world)
    as [Hresponse _].
  apply (Hresponse (mkResponse (Sample.bytes "<h1>hello</h1>") "text/html")
           (log (EvClose "/srv/www/present.html")
              (log (EvRead "/srv/www/present.html")
                 (log (EvOpen "/srv/www/present.html" "rb") Sample.world)))).
  vm_compute. reflexivity.
Defined.

Lemma contains_app_sep (x b : string) :
  Str.contains Str.sep (x ++ String Str.sep b) = true.
Proof.
  induction x as [|a x IH]; cbn [String.append Str.contains].
  - now rewrite Ascii.eqb_refl.
  - rewrite IH. apply orb_true_r.
Qed.

(** Only what follows the last slash counts for the base name. *)
Lemma after_last_app_sep (x b : string) :
  Str.after_last Str.sep (x ++ String Str.sep b) = Str.after_last Str.sep b.
Proof.
  induction x as [|a x IH]; cbn [String.append Str.after_last].
  - cbn [Str.contains]. now rewrite Ascii.eqb_refl.
  - change (Str.contains Str.sep (String a (x ++ String Str.sep b)))
      with (Ascii.eqb a Str.sep || Str.contains Str.sep (x ++ String Str.sep b)).
    now rewrite contains_app_sep, orb_true_r.
Qed.

Lemma after_last_slash_free_id (c : string) :
  slash_free c -> Str.after_last Str.sep c = c.
Proof. intros Hfree. destruct c as [|a c]; [reflexivity|]. cbn [Str.after_last]. now rewrite Hfree. Qed.

(** The base name of a rooted path's string is its last component. *)
Lemma basename_str (front : list string) (c : string) :
  slash_free c ->
  os_path.basename (pathlib.str (pathlib.mkPath true (front ++ [c]))) = c.
Proof.
  intros Hfree. unfold os_path.basename, pathlib.str;
    cbn [pathlib.anchored pathlib.parts].
  destruct front as [|x front].
  - change ("/" ++ Str.join "/" ([] ++ [c])) with ("" ++ String Str.sep c).
    rewrite after_last_app_sep. now apply after_last_slash_free_id.
  - rewrite join_app by discriminate.
    change (Str.join "/" [c]) with c.
    change ("/" ++ c) with (String Str.sep c). rewrite <- append_assoc.
    rewrite after_last_app_sep. now apply after_last_slash_free_id.
Qed.

(** X7: serving a regular file inside the directory.  When the join is
    accepted and names a regular file the process can open and read, the
    response holds its content; its content type is the type the lookup
    finds under the last component of the resolved path, and
    ['application/octet-stream'] when it finds none, so [.] and [..] in
    the requested name play no part in it; the file is opened, read and
    closed once. *)
Theorem send_from_directory_serves
  (directory file_name : string) (w : World) (p : pathlib.Path)
  (name : string) (content : list Byte.byte) :
  fst (safe_join directory [file_name] w) = Return p ->
  last (pathlib.parts p) = Some name ->
  os.stat (w_fs w) (pathlib.str p) = Some (RegularFile content) ->
  os.readable (w_fs w) (pathlib.str p) = true ->
  exists resp,
    send_from_directory directory file_name w
    = (Return resp,
       log (EvClose (pathlib.str p))
         (log (EvRead (pathlib.str p)) (log (EvOpen (pathlib.str p) "rb") w)))
    /\ data resp = content
    /\ (forall t, mimetypes_db (w_interp w) name = Some t -> t <> "" ->
                  mimetype resp = t)
    /\ (mimetypes_db (w_interp w) name = None ->
        mimetype resp = "application/octet-stream").
Proof.
  rewrite safe_join_run, send_from_directory_run. cbv zeta. cbn [fst].
  destruct (Str.startswith _ _); [|discriminate].
  intros [= <-] Hlast Hstat Hreadable.
  rewrite Hstat, (send_file_readable _ _ content Hstat Hreadable).
  apply last_Some in Hlast as [front Hfront].
  assert (Hfree : slash_free name).
  { pose proof (clean_slash_free _
      (safe_parts_clean (fs_cwd (w_fs w)) [directory; file_name])) as Hall.
    rewrite Hfront in Hall. apply Forall_app in Hall as [_ Hname].
    now inversion Hname. }
  assert (Hbase : os_path.basename
                    (pathlib.str (pathlib.resolve (fs_cwd (w_fs w))
                                    (pathlib.Path_of [directory; file_name])))
                  = name).
  { replace (pathlib.resolve (fs_cwd (w_fs w)) (pathlib.Path_of [directory; file_name]))
      with (pathlib.mkPath true (front ++ [name])) by (now rewrite <- Hfront).
    now apply basename_str. }
  rewrite Hbase. eexists. split; [reflexivity|]. split; [reflexivity|].
  cbn [mimetype]. split.
  - intros t -> Ht. now apply or_else_found.
  - now intros ->.
Qed.

Lemma send_from_directory_serves_witness :
  exists resp,
    send_from_directory "/srv/www" "css/../present.html" Sample.world
    = (Return resp,
       log (EvClose "/srv/www/present.html")
         (log (EvRead "/srv/www/present.html")
            (log (EvOpen "/srv/www/present.html" "rb") Sample.world)))
    /\ data resp = Sample.bytes "<h1>hello</h1>"
    /\ mimetype resp = "text/html".
Proof.
  destruct (send_from_directory_serves "/srv/www" "css/../present.html" Sample.world
              (pathlib.mkPath true ["srv"; "www"; "present.html"]) "present.html"
              (Sample.bytes "<h1>hello</h1>"))
    as (resp & Hrun & Hdata & Hfound & _).
  - rewrite safe_join_run. reflexivity.
  - reflexivity.
  - vm_compute. reflexivity.
  - vm_compute. reflexivity.
  - exists resp. split; [exact Hrun|]. split; [exact Hdata|].
    apply Hfound; [vm_compute; reflexivity | discriminate].
Defined.

End Serving.

(** ** More on the component *)

Section Component.

#[local] Arguments String.append !s1 s2 : simpl nomatch.

Lemma startswith_slash (p : string) :
  Str.startswith p "/" = true <-> exists rest, p = String Str.sep rest.
Proof.
  unfold Str.startswith. destruct p as [|a p]; cbn [String.prefix].
  - split; [discriminate | now intros [rest Hrest]].
  - destruct (ascii_dec "/" a) as [<-|Hne].
    + split; [now exists p | now destruct p].
    + split; [discriminate | intros [rest [= Ha _]]; now destruct Hne].
Qed.

Lemma endswith_sep (root : string) :
  Str.endswith Str.sep root = true -> exists r, root = r ++ String Str.sep "".
Proof.
  induction root as [|a root IH]; [discriminate|].
  destruct root as [|b root].
  - cbn [Str.endswith]. intros Ha%Ascii.eqb_eq. subst a. now exists "".
  - intros Hend. destruct (IH Hend) as [r Hr]. exists (String a r).
    cbn [String.append]. now rewrite <- Hr.
Qed.

Lemma after_last_slash_free (s : string) : slash_free (Str.after_last Str.sep s).
Proof.
  induction s as [|a s IH]; [reflexivity|]. cbn [Str.after_last].
  now destruct (Str.contains Str.sep (String a s)) eqn:Hany.
Qed.

(** The base name of the joined static folder is the base name of the
    folder as configured. *)
Lemma basename_join (root folder : string) :
  os_path.basename (os_path.join root [folder]) = os_path.basename folder.
Proof.
  unfold os_path.join, os_path.join_step, os_path.basename; cbn [fold_left].
  destruct (Str.startswith folder "/"); [reflexivity|].
  destruct root as [|a root]; [reflexivity|]. cbn [Str.is_empty orb].
  destruct (Str.endswith Str.sep (String a root)) eqn:Hend.
  - apply endswith_sep in Hend as [r ->].
    rewrite append_assoc. apply after_last_app_sep.
  - apply (after_last_app_sep (String a root)).
Qed.

(** X8: without an explicit URL path, the URL path of a configured static
    folder is a slash followed by the base name of the folder as it was
    set: a single segment, the same under every root path. *)
Theorem static_url_path_from_folder (self : PackageStatic.t) (folder : string) :
  PackageStatic._static_url_path self = None ->
  PackageStatic._static_folder self = Some folder ->
  PackageStatic.static_url_path self = Some ("/" ++ os_path.basename folder)
  /\ slash_free (os_path.basename folder).
Proof.
  intros Hurl Hfolder. split; [|apply after_last_slash_free].
  unfold PackageStatic.static_url_path, PackageStatic.static_folder.
  now rewrite Hurl, Hfolder, basename_join.
Qed.

Lemma static_url_path_from_folder_witness :
  PackageStatic.static_url_path
    (PackageStatic.set_static_folder Sample.app "assets/v2/static")
  = Some ("/" ++ os_path.basename "assets/v2/static")
  /\ slash_free (os_path.basename "assets/v2/static").
Proof.
  apply (static_url_path_from_folder
           (PackageStatic.set_static_folder Sample.app "assets/v2/static")
           "assets/v2/static"); reflexivity.
Defined.

(** X9: once a static folder is set, [send_static_file] is
    [send_from_directory] on the root path joined with that folder, with
    the same result and the same effects, and the [RuntimeError] of a
    missing static folder is no longer raised. *)
Theorem send_static_file_configured
  (self : PackageStatic.t) (folder filename : string) (w : World) :
  PackageStatic._static_folder self = Some folder ->
  PackageStatic.send_static_file self filename w
  = send_from_directory (os_path.join (PackageStatic.root_path self) [folder]) filename w
  /\ fst (PackageStatic.send_static_file self filename w)
     <> Raise (RuntimeError "No static folder for this object").
Proof.
  intros Hfolder.
  assert (Hserve : PackageStatic.send_static_file self filename w
                   = send_from_directory
                       (os_path.join (PackageStatic.root_path self) [folder]) filename w).
  { unfold PackageStatic.send_static_file, PackageStatic.has_static_folder,
      PackageStatic.static_folder. now rewrite Hfolder. }
  split; [exact Hserve|]. rewrite Hserve, send_from_directory_run. cbv zeta.
  destruct (Str.startswith _ _); [|discriminate].
  destruct (os.stat _ _) as [[content| |]|]; try discriminate.
  rewrite send_file_run. cbv zeta. repeat case_match; discriminate.
Qed.

Lemma send_static_file_configured_witness :
  PackageStatic.send_static_file
    (PackageStatic.set_static_folder Sample.app "www") "noext" Sample.world
  = send_from_directory (os_path.join "/srv" ["www"]) "noext" Sample.world
  /\ fst (PackageStatic.send_static_file
            (PackageStatic.set_static_folder Sample.app "www") "noext" Sample.world)
     <> Raise (RuntimeError "No static folder for this object").
Proof.
  apply (send_static_file_configured
           (PackageStatic.set_static_folder Sample.app "www") "www" "noext" Sample.world).
  reflexivity.
Defined.

(** X10: a component that [__init__] returns keeps the name and the
    template folder it was given, has no static folder and no URL path,
    and refuses to serve static files until a folder is set. *)
Theorem init_fresh
  (import_name : string) (template_folder root_path : option string)
  (w w' : World) (self : PackageStatic.t) :
  PackageStatic.__init__ import_name template_folder root_path w = (Return self, w') ->
  PackageStatic.import_name self = import_name
  /\ PackageStatic.template_folder self = template_folder
  /\ PackageStatic.has_static_folder self = false
  /\ PackageStatic.static_url_path self = None
  /\ forall filename w2,
       PackageStatic.send_static_file self filename w2
       = (Raise (RuntimeError "No static folder for this object"), w2).
Proof.
  unfold PackageStatic.__init__. unfold mbind at 1, IO_bind.
  destruct (PackageStatic._find_root_path import_name root_path w) as [[root|e] w1];
    [|discriminate].
  intros [= <- _]. now repeat split.
Qed.

Lemma init_fresh_witness :
  "app" = "app"
  /\ Some "templates" = Some "templates"
  /\ PackageStatic.has_static_folder
       (PackageStatic.mk "app" (Some "templates") "/home/u" None None) = false
  /\ PackageStatic.static_url_path
       (PackageStatic.mk "app" (Some "templates") "/home/u" None None) = None
  /\ forall filename w2,
       PackageStatic.send_static_file
         (PackageStatic.mk "app" (Some "templates") "/home/u" None None) filename w2
       = (Raise (RuntimeError "No static folder for this object"), w2).
Proof.
  apply (init_fresh "app" (Some "templates") None Sample.world Sample.world
           (PackageStatic.mk "app" (Some "templates") "/home/u" None None)).
  vm_compute. reflexivity.
Defined.

End Component.

(** ** More on root resolution and resources *)

Section Roots.

#[local] Arguments String.append !s1 s2 : simpl nomatch.



Lemma normpath_absolute (path : string) :
  Str.startswith path "/" = true -> Str.startswith (os_path.normpath path) "/" = true.
Proof.
  intros Habs. unfold os_path.normpath. rewrite Habs.
  apply startswith_slash in Habs as [rest ->]. cbn [Str.is_empty].
  destruct (_ && _); apply startswith_slash; eexists; reflexivity.
Qed.

Lemma abspath_absolute (cwd path : string) :
  Str.startswith cwd "/" = true ->
  Str.startswith (os_path.abspath cwd path) "/" = true.
Proof.
  intros Hcwd. unfold os_path.abspath, os_path.isabs. apply normpath_absolute.
  destruct (Str.startswith path "/") eqn:Hpath; [exact Hpath|].
  unfold os_path.join, os_path.join_step; cbn [fold_left]. rewrite Hpath.
  apply startswith_slash in Hcwd as [rest ->].
  destruct (_ || _); apply startswith_slash; eexists; reflexivity.
Qed.

Lemma dirname_absolute (p : string) :
  Str.startswith p "/" = true -> Str.startswith (os_path.dirname p) "/" = true.
Proof.
  intros Habs. apply startswith_slash in Habs as [rest ->].
  unfold os_path.dirname. cbn [Str.upto_last Str.contains].
  rewrite Ascii.eqb_refl. cbn [orb Str.rstrip].
  destruct (Str.rstrip Str.sep (Str.upto_last Str.sep rest));
    rewrite ?Ascii.eqb_refl; apply startswith_slash; eexists; reflexivity.
Qed.

(** X12: in a process whose working directory is an absolute path, every
    root that resolution returns without an override is an absolute path
    too, whether it comes from a module's file, from a loader or from the
    working directory. *)
Theorem find_root_path_absolute (import_name : string) (w w' : World) (root : string) :
  Str.startswith (fs_cwd (w_fs w)) "/" = true ->
  PackageStatic._find_root_path import_name None w = (Return root, w') ->
  Str.startswith root "/" = true.
Proof.
  intros Hcwd. unfold PackageStatic._find_root_path, sys_modules_get,
    pkgutil_get_loader, os.abspath, os.getcwd. run.
  destruct (option_bind _ _ _ _) as [[file_path|]|].
  - intros [= <- _]. now apply dirname_absolute, abspath_absolute.
  - discriminate.
  - destruct (loaders (w_interp w) !! import_name) as [loader|].
    + destruct (String.eqb import_name "__main__"); [now intros [= <- _]|].
      destruct (get_filename loader import_name) as [file_path|]; [|discriminate].
      intros [= <- _]. now apply dirname_absolute, abspath_absolute.
    + destruct (unimportable (w_interp w) !! import_name); [discriminate|].
      now intros [= <- _].
Qed.

Lemma find_root_path_absolute_witness : Str.startswith "/srv/app" "/" = true.
Proof.
  apply (find_root_path_absolute "__main__" Sample.world Sample.world "/srv/app").
  - reflexivity.
  - vm_compute. reflexivity.
Defined.

(** X13: whatever the path and the mode, [open_resource] leaves the file
    system and the interpreter as they are and opens at most one file, the
    root path joined with the path, in the mode asked for. *)
Theorem open_resource_effects (self : PackageStatic.t) (path mode : string) (w : World) :
  w_fs (snd (PackageStatic.open_resource self path mode w)) = w_fs w
  /\ w_interp (snd (PackageStatic.open_resource self path mode w)) = w_interp w
  /\ (w_trace (snd (PackageStatic.open_resource self path mode w)) = w_trace w
      \/ w_trace (snd (PackageStatic.open_resource self path mode w))
         = (w_trace w
            ++ [EvOpen (os_path.join (PackageStatic.root_path self) [path]) mode])%list).
Proof.
  unfold PackageStatic.open_resource.
  destruct (bool_decide _) eqn:Hmode; cbn [negb]; [|now repeat split; try left].
  apply mode_accepted in Hmode.
  set (name := os_path.join _ _).
  rewrite (open_read_mode_world name mode w Hmode). repeat split. now right.
Qed.

(** X14: [open_resource] does not confine the path to the root: an
    absolute path replaces the root in the join and is opened as it is. *)
Theorem open_resource_absolute_path
  (self : PackageStatic.t) (path mode : string) (w : World) :
  Str.startswith path "/" = true ->
  mode = "r" \/ mode = "rb" ->
  PackageStatic.open_resource self path mode w = open_ path mode w.
Proof.
  intros Habs Hmode. rewrite open_resource_read_modes by exact Hmode.
  unfold os_path.join, os_path.join_step; cbn [fold_left]. now rewrite Habs.
Qed.

Lemma open_resource_absolute_path_witness :
  PackageStatic.open_resource Sample.app "/etc/passwd" "rb" Sample.world
  = open_ "/etc/passwd" "rb" Sample.world.
Proof.
  apply (open_resource_absolute_path Sample.app "/etc/passwd" "rb" Sample.world).
  - reflexivity.
  - now right.
Defined.

Example open_resource_outside_root :
  fst (PackageStatic.open_resource Sample.app "/etc/passwd" "rb" Sample.world)
  = Return (mkHandle "/etc/passwd" "rb")
  /\ fst (PackageStatic.open_resource Sample.app "../etc/passwd" "rb" Sample.world)
     = Return (mkHandle "/srv/../etc/passwd" "rb").
Proof. vm_compute. split; reflexivity. Qed.

End Roots.
